(** * ray_lightning: the Horovod-on-Ray accelerator and the Tune callbacks

    A shallow embedding of [ray_lightning/ray_horovod.py] and
    [ray_lightning/tune.py].  The code is wiring: it moves a trainer, a
    relay queue handle and a result triple between a driver process and
    its worker processes.  Python objects become records, dictionaries
    become [gmap]s, and every function that touches process globals, the
    object store or a relay queue is a computation in the monad [M] below
    (state passing with Python exceptions). *)

From Stdlib Require Import ZArith String List Permutation.
From stdpp Require Import base option list strings gmap fin_maps.

Open Scope string_scope.
Open Scope list_scope.

(** ** Python outcomes *)

Inductive exn : Type :=
| RuntimeError (msg : string)
| KeyError (key : string)
| ValueError (msg : string)
| TypeError (msg : string)
| AttributeError (msg : string)
| IndexError (msg : string).

Inductive outcome (A : Type) : Type :=
| Ok (a : A)
| Raise (e : exn).
Arguments Ok {A} a.
Arguments Raise {A} e.

Definition is_ok {A} (o : outcome A) : bool :=
  match o with Ok _ => true | Raise _ => false end.

(** ** Values owned by the host frameworks

    The code never looks inside these; they are forwarded as they are. *)

Class HostTypes : Type := {
  scalar : Type;      (* what [tensor.item()] yields *)
  state_dict : Type;  (* [model.state_dict()] *)
  snapshot : Type;    (* [checkpoint_connector.dump_checkpoint()] *)
  results : Type      (* what the framework's [train()] returns *)
}.

Section Model.
Context `{HostTypes}.

(** A tensor, by its elements.  [item] succeeds on one-element tensors
    only. *)
Definition tensor : Type := list scalar.

Definition item (t : tensor) : outcome scalar :=
  match t with
  | [x] => Ok x
  | _ => Raise (ValueError
           "only one element tensors can be converted to Python scalars")
  end.

(** [best_model_path] holds a path or [None]. *)
Record ModelCheckpoint : Type := mkModelCheckpoint {
  best_model_path : option string
}.

(** The fields of a Lightning trainer that the code reads or writes.
    [model] is the module by its state dictionary; [dump_checkpoint] is
    the snapshot [trainer.checkpoint_connector.dump_checkpoint()] yields
    in the trainer's current state. *)
Record Trainer : Type := mkTrainer {
  running_sanity_check : bool;
  callback_metrics : gmap string tensor;
  global_step : nat;
  dump_checkpoint : snapshot;
  model : state_dict;
  checkpoint_callback : option ModelCheckpoint;
  on_gpu : bool;
  root_gpu : option nat;
  use_horovod : bool
}.

Definition set_model (m : state_dict) (t : Trainer) : Trainer :=
  mkTrainer (running_sanity_check t) (callback_metrics t) (global_step t)
    (dump_checkpoint t) m (checkpoint_callback t) (on_gpu t) (root_gpu t)
    (use_horovod t).

(** [trainer.model.load_state_dict(sd)]: the module's state becomes [sd]. *)
Definition load_state_dict (sd : state_dict) (t : Trainer) : Trainer :=
  set_model sd t.

Definition set_best_model_path (p : option string) (t : Trainer) : Trainer :=
  mkTrainer (running_sanity_check t) (callback_metrics t) (global_step t)
    (dump_checkpoint t) (model t)
    (match checkpoint_callback t with
     | Some _ => Some (mkModelCheckpoint p)
     | None => None
     end)
    (on_gpu t) (root_gpu t) (use_horovod t).

Definition set_root_gpu (g : nat) (t : Trainer) : Trainer :=
  mkTrainer (running_sanity_check t) (callback_metrics t) (global_step t)
    (dump_checkpoint t) (model t) (checkpoint_callback t) (on_gpu t) (Some g)
    (use_horovod t).


(** ** The relay queue and the process state *)

(** The zero-argument callables the callbacks put on the queue:
    a call of [tune.report] with the report dictionary as keyword
    arguments, and a call of [self._create_checkpoint] on the checkpoint
    dictionary, the global step and [self._filename]. *)
Inductive Action : Type :=
| Report (report_dict : gmap string scalar)
| CreateCheckpoint (checkpoint_dict : snapshot) (global_step : nat)
    (filename : string).

Record QueueActor : Type := mkQueueActor {
  num_cpus : nat;
  items : list Action
}.

Definition enqueue (a : Action) (q : QueueActor) : QueueActor :=
  mkQueueActor (num_cpus q) (items q ++ [a]).

(** Calls into the host frameworks that leave a mark. *)
Inductive Event : Type :=
| HvdInit
| Dumped (s : snapshot)
| Executed (a : Action).

(** A process in the cluster.  [session_rank] and [session_queue] are the
    process-wide session globals; [objects] (the shared-object store,
    an [ObjectRef] being an index, a stored value a trainer or [None])
    and [relay] (the queue actors, by handle) are shared by every
    process of the cluster. *)
Record World : Type := mkWorld {
  session_rank : option nat;
  session_queue : option nat;
  objects : list (option Trainer);
  relay : gmap nat QueueActor;
  trace : list Event
}.

Definition set_session (r : option nat) (q : option nat) (w : World) : World :=
  mkWorld r q (objects w) (relay w) (trace w).
Definition set_objects (o : list (option Trainer)) (w : World) : World :=
  mkWorld (session_rank w) (session_queue w) o (relay w) (trace w).
Definition set_relay (r : gmap nat QueueActor) (w : World) : World :=
  mkWorld (session_rank w) (session_queue w) (objects w) r (trace w).
Definition log (e : Event) (w : World) : World :=
  mkWorld (session_rank w) (session_queue w) (objects w) (relay w)
    (trace w ++ [e]).

(** The world after action [a] went to the back of queue [h]. *)
Definition enqueue_at (h : nat) (a : Action) (w : World) : World :=
  set_relay (alter (enqueue a) h (relay w)) w.

(** What is waiting on the queue behind handle [h]. *)
Definition pending (h : nat) (w : World) : list Action :=
  match relay w !! h with
  | Some q => items q
  | None => []
  end.

(** ** Computations *)

Definition M (A : Type) : Type := World -> outcome A * World.

Definition ret {A} (a : A) : M A := fun w => (Ok a, w).
Definition raise {A} (e : exn) : M A := fun w => (Raise e, w).
Definition bind {A B} (m : M A) (k : A -> M B) : M B :=
  fun w =>
    match m w with
    | (Ok a, w') => k a w'
    | (Raise e, w') => (Raise e, w')
    end.
Definition lift {A} (o : outcome A) : M A := fun w => (o, w).
Definition modify (f : World -> World) : M unit := fun w => (Ok tt, f w).
Definition gets {A} (f : World -> A) : M A := fun w => (Ok (f w), w).

End Model.

#[global] Instance M_ret `{HostTypes} : MRet M := @ret _.
#[global] Instance M_bind `{HostTypes} : MBind M := fun A B k m => bind m k.

(** ** ray_lightning.session *)

Module session.
Section Session.
Context `{HostTypes}.

(** Modelled from the spec: [ray_lightning/session.py] is not among the
    sources.  The session is a pair of process-wide globals (rank, queue);
    [init_session] overwrites any prior session state. *)
Definition init_session (rank : nat) (queue : option nat) : M unit :=
  modify (set_session (Some rank) queue).

(** Modelled from the spec: [get_actor_rank] of the absent session module
    reads the rank global ([None] before [init_session]). *)
Definition get_actor_rank : M (option nat) := gets session_rank.

(** Modelled from the spec: [put_queue] of the absent session module
    enqueues a zero-argument action at the back of the FIFO relay queue,
    and is a no-op if no session/queue is active. *)
Definition put_queue (a : Action) : M unit :=
  q ← gets session_queue;
  match q with
  | None => ret tt
  | Some h => modify (enqueue_at h a)
  end.

End Session.
End session.

(** Python's substring test [needle in hay]. *)
Fixpoint contains (needle hay : string) : bool :=
  String.prefix needle hay
  || match hay with
     | EmptyString => false
     | String _ hay' => contains needle hay'
     end.

(** ** ray_lightning.tune *)

(** What the interpreter finds at import time, and whether Ray Tune runs
    the driver in a session. *)
Record Install : Type := mkInstall {
  horovod_importable : bool;
  tune_importable : bool;
  tune_session_active : bool
}.

Module tune.

Definition TUNE_INSTALLED (env : Install) : bool := tune_importable env.

(** With Tune installed this is [ray.tune.is_session_enabled]; otherwise
    the fallback defined in the [except ImportError] branch. *)
Definition is_session_enabled (env : Install) : bool :=
  if tune_importable env then tune_session_active env else false.

(** *** get_tune_ddp_resources *)

(** Python numbers in the resources dictionary.  Floating-point
    arithmetic is the interpreter's; the code only stores its results. *)
Class FloatOps : Type := {
  float : Type;
  float_of_int : Z -> float;
  float_lit_0_99 : float;
  fmul : float -> float -> float;
  fsub : float -> float -> float;
  ceil : float -> Z
}.

Section Resources.
Context `{FloatOps}.







End Resources.

(** *** The callbacks (the [TUNE_INSTALLED] branch) *)

Inductive metrics_arg : Type :=
| MetricsNone
| MetricsStr (s : string)
| MetricsList (l : list string)
| MetricsDict (d : list (string * string)).

Inductive on_arg : Type :=
| OnStr (s : string)
| OnList (l : list string).

(** [TuneCallback] is Ray Tune's: it keeps the hook names in [_on] and
    its [on_<event>] hooks call [_handle] when the event is listed. *)
Definition TuneCallback_init (on : on_arg) : list string :=
  match on with
  | OnStr s => [s]
  | OnList l => l
  end.

(** Python truthiness of a metrics selection: [not self._metrics]. *)
Definition py_not (m : metrics_arg) : bool :=
  match m with
  | MetricsNone => true
  | MetricsStr s => String.eqb s ""
  | MetricsList l => match l with [] => true | _ => false end
  | MetricsDict d => match d with [] => true | _ => false end
  end.

(** [for key in self._metrics], each key with the metric looked up for
    it: [self._metrics[key]] for a dict, the key itself otherwise.  A
    dict is its items in insertion order, keys pairwise distinct. *)
Definition selected (m : metrics_arg) : list (string * string) :=
  match m with
  | MetricsNone => []
  | MetricsStr s => (fun c => (String c "", String c "")) <$> list_ascii_of_string s
  | MetricsList l => (fun key => (key, key)) <$> l
  | MetricsDict d => d
  end.



Section Callbacks.
Context `{HostTypes}.

Definition on_event (_on : list string) (event : string) (_handle : M unit)
    : M unit :=
  if bool_decide (event ∈ _on) then _handle else ret tt.

(** [{k: v.item() for k, v in trainer.callback_metrics.items()}] *)
Definition all_items (cm : gmap string tensor) : outcome (gmap string scalar) :=
  map_fold
    (fun k v acc =>
       match acc with
       | Ok d => match item v with
                 | Ok x => Ok (<[k := x]> d)
                 | Raise e => Raise e
                 end
       | Raise e => Raise e
       end)
    (Ok ∅) cm.

(** The scalar of a tensor that has one. *)
Definition scalar_of (v : tensor) : option scalar :=
  match item v with
  | Ok x => Some x
  | Raise _ => None
  end.

(** The [for key in self._metrics] loop filling [report_dict]. *)
Fixpoint report_loop (cm : gmap string tensor) (keys : list (string * string))
    (report_dict : gmap string scalar) : outcome (gmap string scalar) :=
  match keys with
  | [] => Ok report_dict
  | (key, metric) :: keys' =>
      match cm !! metric with
      | None => Raise (KeyError metric)
      | Some v =>
          match item v with
          | Ok x => report_loop cm keys' (<[key := x]> report_dict)
          | Raise e => Raise e
          end
      end
  end.

End Callbacks.

Module TuneReportCallback.
Section Class.
Context `{HostTypes}.

Record t : Type := mk {
  _on : list string;
  _metrics : metrics_arg
}.

Definition __init__ (metrics : metrics_arg) (on : on_arg) : t :=
  let _on := TuneCallback_init on in
  let metrics :=
    match metrics with
    | MetricsStr s => MetricsList [s]
    | _ => metrics
    end in
  mk _on metrics.

(** [None] is the bare [return] of the sanity-check guard. *)
Definition _get_report_dict (self : t) (trainer : Trainer)
    : outcome (option (gmap string scalar)) :=
  if running_sanity_check trainer then Ok None
  else
    let report_dict :=
      if py_not (_metrics self) then all_items (callback_metrics trainer)
      else report_loop (callback_metrics trainer) (selected (_metrics self)) ∅ in
    match report_dict with
    | Ok d => Ok (Some d)
    | Raise e => Raise e
    end.

Definition _handle (self : t) (trainer : Trainer) : M unit :=
  rank ← session.get_actor_rank;
  if bool_decide (rank = Some 0) then
    report_dict ← lift (_get_report_dict self trainer);
    match report_dict with
    | Some d => session.put_queue (Report d)
    | None => ret tt
    end
  else ret tt.

End Class.
End TuneReportCallback.

Module _TuneCheckpointCallback.
Section Class.
Context `{HostTypes}.

Record t : Type := mk {
  _on : list string;
  _filename : string
}.

Definition __init__ (filename : string) (on : on_arg) : t :=
  mk (TuneCallback_init on) filename.


Definition _handle (self : t) (trainer : Trainer) : M unit :=
  if running_sanity_check trainer then ret tt
  else
    let checkpoint_dict := dump_checkpoint trainer in
    modify (log (Dumped checkpoint_dict));;
    let global_step := global_step trainer in
    rank ← session.get_actor_rank;
    if bool_decide (rank = Some 0) then
      session.put_queue
        (CreateCheckpoint checkpoint_dict global_step (_filename self))
    else ret tt.

End Class.
End _TuneCheckpointCallback.

Module TuneReportCheckpointCallback.
Section Class.
Context `{HostTypes}.

Record t : Type := mk {
  _on : list string;
  _checkpoint : _TuneCheckpointCallback.t;
  _report : TuneReportCallback.t
}.

Definition __init__ (metrics : metrics_arg) (filename : string) (on : on_arg)
    : t :=
  mk (TuneCallback_init on)
     (_TuneCheckpointCallback.__init__ filename on)
     (TuneReportCallback.__init__ metrics on).

Definition _handle (self : t) (trainer : Trainer) : M unit :=
  _TuneCheckpointCallback._handle (_checkpoint self) trainer;;
  TuneReportCallback._handle (_report self) trainer.

End Class.
End TuneReportCheckpointCallback.

End tune.

(** ** Ray: the object store and remote execution *)

Module ray.
Section Ray.
Context `{HostTypes}.

Definition put (x : option Trainer) : M nat :=
  fun w => (Ok (length (objects w)), set_objects (objects w ++ [x]) w).

Definition get (ref : nat) : M (option Trainer) :=
  fun w =>
    match objects w !! ref with
    | Some x => (Ok x, w)
    | None => (Raise (ValueError "unknown object reference"), w)
    end.

(** A task runs in the actor's own process: it starts with that
    process's (unset) session globals and shares the object store and
    the queue actors with the caller, whose own globals are untouched. *)
Definition remote {A} (task : M A) : M A :=
  fun w =>
    match task (set_session None None w) with
    | (o, w') => (o, set_session (session_rank w) (session_queue w) w')
    end.

End Ray.
End ray.

(** ** ray_lightning.util *)

Module util.
Section Util.
Context `{HostTypes}.

(** Modelled from the spec: [Queue] of the absent [ray_lightning/util.py]
    creates a fresh, empty relay queue actor; [actor_options] carries the
    CPU reservation of the actor. *)
Definition Queue (actor_options_num_cpus : nat) : M nat :=
  fun w =>
    let h := fresh (dom (relay w)) in
    (Ok h, set_relay (<[h := mkQueueActor actor_options_num_cpus []]> (relay w)) w).

(** Modelled from the spec: the draining step of the absent
    [process_results], executing every pending action of the queue in
    enqueue order. *)
Definition drain (queue : option nat) : M unit :=
  match queue with
  | None => ret tt
  | Some h =>
      fun w =>
        (Ok tt,
         mkWorld (session_rank w) (session_queue w) (objects w)
           (alter (fun q => mkQueueActor (num_cpus q) []) h (relay w))
           (trace w ++ (Executed <$> pending h w)))
  end.

(** Modelled from the spec: the waiting step of the absent
    [process_results], collecting each task's result in dispatch order. *)
Fixpoint wait_all {A} (futures : list (M A)) : M (list A) :=
  match futures with
  | [] => ret []
  | f :: futures' =>
      r ← f;
      rs ← wait_all futures';
      ret (r :: rs)
  end.

(** Modelled from the spec: [process_results] of the absent
    [ray_lightning/util.py] blocks until all dispatched tasks complete,
    executes every enqueued action in enqueue order before it returns,
    and yields the tasks' results in dispatch order; a failed task fails
    the run.  The tasks are run here one after the other. *)
Definition process_results {A} (futures : list (M A)) (queue : option nat)
    : M (list A) :=
  rs ← wait_all futures;
  drain queue;;
  ret rs.

End Util.
End util.

(** ** ray_lightning.ray_horovod *)

Module ray_horovod.

Definition HOROVOD_AVAILABLE (env : Install) : bool := horovod_importable env.

(** Horovod's view of a worker process: [hvd.rank()], [hvd.local_rank()]. *)
Record Worker : Type := mkWorker {
  rank : nat;
  local_rank : nat
}.

(** Positional arguments of a dispatched call. *)
Inductive pyobj : Type :=
| ObjectRef (ref : nat)
| QueueHandle (h : nat)
| NoneObj.

Definition queue_obj (queue : option nat) : pyobj :=
  match queue with
  | Some h => QueueHandle h
  | None => NoneObj
  end.

Section Executor.
Context `{HostTypes}.

Record Future (A : Type) : Type := mkFuture {
  target : Worker;
  call_args : list pyobj;
  task : M A
}.
Arguments mkFuture {A}.
Arguments target {A}.
Arguments call_args {A}.
Arguments task {A}.

Record RayExecutor : Type := mkRayExecutor {
  workers : list Worker
}.

(** Horovod's [RayExecutor] started with [num_hosts] x [num_slots]
    workers, rank by position, local rank by slot. *)
Definition start (num_hosts num_slots : nat) : RayExecutor :=
  mkRayExecutor
    ((fun i => mkWorker i (i mod num_slots)) <$> seq 0 (num_hosts * num_slots)).

End Executor.
Arguments mkFuture {_ A}.
Arguments target {_ A}.
Arguments call_args {_ A}.
Arguments task {_ A}.

Module CustomRayExecutor.
Section Class.
Context `{HostTypes}.

(** [fn] is called on the unpacked [args] in each worker's process. *)
Definition run_async {A} (self : RayExecutor)
    (fn : Worker -> list pyobj -> M A) (args : option (list pyobj))
    : list (Future A) :=
  let args := default [] args in
  (fun worker => mkFuture worker args (ray.remote (fn worker args)))
    <$> workers self.

End Class.
End CustomRayExecutor.

Module HorovodRayAccelerator.
Section Class.
Context `{HostTypes}.

(** The superclass's [setup] followed by its [train]: the framework's
    single-process training, run in the worker [me] on the trainer; it
    yields the results and leaves the trainer trained. *)
Variable HorovodAccelerator_train : Worker -> Trainer -> M (results * Trainer).

Record t : Type := mk {
  nickname : string;
  num_hosts : nat;
  num_slots : nat;
  use_gpu : bool;
  trainer : option Trainer;
  executor : option RayExecutor
}.

Definition set_trainer (tr : option Trainer) (self : t) : t :=
  mk (nickname self) (num_hosts self) (num_slots self) (use_gpu self) tr
    (executor self).


Definition not_installed_message : string :=
  ("Horovod is not installed. Please intall it " ++
   "(https://horovod.readthedocs.io/en/stable/" ++
   "install_include.html" ++
   ") to use the HorovodRayAccelerator.")%string.

Definition __init__ (env : Install) (num_hosts num_slots : nat)
    (use_gpu : bool) : outcome t :=
  if negb (HOROVOD_AVAILABLE env) then
    Raise (RuntimeError not_installed_message)
  else
    Ok (mk "horovod_ray" num_hosts num_slots use_gpu None None).

(** Values of the attributes in an accelerator's [__dict__]; the
    superclass's own entries are kept as they come. *)
Inductive attr : Type :=
| AttrInt (n : nat)
| AttrBool (b : bool)
| AttrOther (repr : string).

(** [super_state] is what the superclass's [__getstate__] returns. *)
Definition __getstate__ (self : t) (super_state : gmap string attr)
    : gmap string attr :=
  let d := super_state in
  let d := <["num_hosts" := AttrInt (num_hosts self)]> d in
  let d := <["num_slots" := AttrInt (num_slots self)]> d in
  let d := <["use_gpu" := AttrBool (use_gpu self)]> d in
  d.

(** [self.__dict__.update(d)] *)
Definition __setstate__ (self__dict__ : gmap string attr)
    (d : gmap string attr) : gmap string attr :=
  d ∪ self__dict__.


(** What a worker hands back: [None], or the triple of rank 0. *)
Definition RunResult : Type := option (results * state_dict * option string).

Definition train_remote (me : Worker) (trainer_ref : nat) (queue : option nat)
    : M RunResult :=
  self_trainer ← ray.get trainer_ref;
  modify (log HvdInit);;
  match queue with
  | Some q => session.init_session (rank me) (Some q)
  | None => ret tt
  end;;
  match self_trainer with
  | None => raise (AttributeError "'NoneType' object has no attribute 'on_gpu'")
  | Some tr =>
      let tr := if on_gpu tr then set_root_gpu (local_rank me) tr else tr in
      '(results, tr) ← HorovodAccelerator_train me tr;
      if bool_decide (rank me ≠ 0) then ret None
      else
        let best_model_path :=
          match checkpoint_callback tr with
          | Some cb => best_model_path cb
          | None => None
          end in
        let model := model tr in
        ret (Some (results, model, best_model_path))
  end.

(** [self.train_remote] called on the unpacked [args]: binding the
    positional arguments. *)
Definition train_remote_call (me : Worker) (args : list pyobj) : M RunResult :=
  match args with
  | [ObjectRef ref] => train_remote me ref None
  | [ObjectRef ref; NoneObj] => train_remote me ref None
  | [ObjectRef ref; QueueHandle h] => train_remote me ref (Some h)
  | _ => raise (TypeError "train_remote() called with unexpected arguments")
  end.

(** The first half of [train]: up to and including [run_async]. *)
Definition train_dispatch (env : Install) (self : t)
    : M (option Trainer * t * option nat * list (Future RunResult)) :=
  let tr := trainer self in
  trainer_ref ← ray.put (trainer self);
  let self := set_trainer None self in
  queue ←
    (if tune.TUNE_INSTALLED env && tune.is_session_enabled env
     then q ← util.Queue 0; ret (Some q)
     else ret None);
  match executor self with
  | None => raise (AttributeError "'HorovodRayAccelerator' object has no attribute 'executor'")
  | Some ex =>
      let result_futures :=
        CustomRayExecutor.run_async ex train_remote_call
          (Some [ObjectRef trainer_ref; queue_obj queue]) in
      ret (tr, self, queue, result_futures)
  end.

(** The second half of [train]: from [process_results] to the end. *)
Definition train_collect (tr : option Trainer) (self : t)
    (queue : option nat) (result_futures : list (Future RunResult))
    : M (results * t) :=
  results ← util.process_results (task <$> result_futures) queue;
  match results with
  | [] => raise (IndexError "list index out of range")
  | None :: _ => raise (TypeError "cannot unpack non-iterable NoneType object")
  | Some (results, state_dict, best_path) :: _ =>
      let self := set_trainer tr self in
      match tr with
      | None => raise (AttributeError "'NoneType' object has no attribute 'model'")
      | Some tr =>
          let tr := load_state_dict state_dict tr in
          let tr :=
            match checkpoint_callback tr with
            | Some _ => set_best_model_path best_path tr
            | None => tr
            end in
          ret (results, set_trainer (Some tr) self)
      end
  end.

Definition train (env : Install) (self : t) : M (results * t) :=
  '(tr, self, queue, result_futures) ← train_dispatch env self;
  train_collect tr self queue result_futures.

End Class.
End HorovodRayAccelerator.

End ray_horovod.

(** ** ray_lightning.tests.utils *)

Module utils.

(** Entries of a Lightning checkpoint dictionary. *)
Inductive entry : Type :=
| EntryInt (n : Z)
| EntryOther (repr : string).

Module BoringModel.

(** The module by the counter its checkpoint hooks save and restore. *)
Record t : Type := mk {
  val_epoch : entry
}.

Definition __init__ : t := mk (EntryInt 0).

(** The hook writes into the dictionary it is handed. *)
Definition on_save_checkpoint (self : t) (checkpoint : gmap string entry)
    : gmap string entry :=
  <["val_epoch" := val_epoch self]> checkpoint.

Definition on_load_checkpoint (self : t) (checkpoint : gmap string entry)
    : outcome t :=
  match checkpoint !! "val_epoch" with
  | Some v => Ok (mk v)
  | None => Raise (KeyError "val_epoch")
  end.

End BoringModel.

End utils.

(** ** Vocabulary of the properties *)

Section Vocabulary.
Context `{HostTypes}.

(** The metric of a selected key is logged and has a scalar. *)
Definition available (cm : gmap string tensor) (km : string * string) : Prop :=
  is_Some (cm !! km.2 ≫= tune.scalar_of).

(** No key of a selection names two metrics. *)
Definition functional (keys : list (string * string)) : Prop :=
  ∀ k m m', (k, m) ∈ keys → (k, m') ∈ keys → m = m'.

(** What a put on queue [h'] adds to queue [h]. *)
Definition added (h' h : nat) (a : Action) (w : World) : list Action :=
  if bool_decide (h' = h) then
    match relay w !! h with Some _ => [a] | None => [] end
  else [].

(** The path a rank-0 worker reports for its trained trainer. *)
Definition reported_path (tr : Trainer) : option string :=
  match checkpoint_callback tr with
  | Some cb => best_model_path cb
  | None => None
  end.


(** The message of [item] on a tensor that is not a one-element tensor. *)
Definition not_scalar_message : string :=
  "only one element tensors can be converted to Python scalars".

(** A framework run whose training fires the metric reporter [cb] once
    and then succeeds with [res], the trainer as it was. *)
Definition training_that_reports (cb : tune.TuneReportCallback.t)
    (res : results) (me : ray_horovod.Worker) (tr : Trainer)
    : M (results * Trainer) :=
  tune.TuneReportCallback._handle cb tr;;
  ret (res, tr).

(** A framework run that always succeeds and leaves the object store as
    it found it. *)
Definition well_behaved (fit : ray_horovod.Worker -> Trainer -> M (results * Trainer))
    : Prop :=
  ∀ me tr w, ∃ res tr' w',
    fit me tr w = (Ok (res, tr'), w') ∧ objects w' = objects w.

End Vocabulary.

(** ** Sample data *)

Module Sample.

#[global] Instance host : HostTypes :=
  {| scalar := Z; state_dict := list Z; snapshot := string; results := nat |}.

Definition metrics : gmap string tensor :=
  <["val_loss" := [5%Z]]> (<["val_acc" := [9%Z]]> ∅).

Definition fitting : Trainer :=
  mkTrainer false metrics 12 "snapshot@12" [1%Z; 2%Z]
    (Some (mkModelCheckpoint (Some "epoch=0.ckpt"))) false None false.

Definition sanity_checking : Trainer :=
  mkTrainer true ∅ 0 "snapshot@0" [1%Z; 2%Z]
    (Some (mkModelCheckpoint (Some ""))) false None false.

Definition empty_queue : QueueActor := mkQueueActor 0 [].

(** A worker of rank [r] whose session holds queue 0. *)
Definition worker_world (r : nat) : World :=
  mkWorld (Some r) (Some 0) [] (<[0 := empty_queue]> ∅) [].

(** A driver process before a run: no session, nothing stored, no queue. *)
Definition quiet_world : World := mkWorld None None [] ∅ [].

Definition report_all : tune.TuneReportCallback.t :=
  tune.TuneReportCallback.__init__ tune.MetricsNone (tune.OnStr "validation_end").

Definition report_empty_list : tune.TuneReportCallback.t :=
  tune.TuneReportCallback.__init__ (tune.MetricsList [])
    (tune.OnStr "validation_end").

Definition report_loss : tune.TuneReportCallback.t :=
  tune.TuneReportCallback.__init__ (tune.MetricsList ["val_loss"])
    (tune.OnStr "validation_end").

Definition report_renamed : tune.TuneReportCallback.t :=
  tune.TuneReportCallback.__init__
    (tune.MetricsDict [("loss", "val_loss"); ("mean_accuracy", "val_acc")])
    (tune.OnStr "validation_end").

Definition report_f1 : tune.TuneReportCallback.t :=
  tune.TuneReportCallback.__init__ (tune.MetricsList ["val_loss"; "val_f1"])
    (tune.OnStr "validation_end").

Definition checkpointer : tune._TuneCheckpointCallback.t :=
  tune._TuneCheckpointCallback.__init__ "checkpoint" (tune.OnStr "validation_end").

Definition combined : tune.TuneReportCheckpointCallback.t :=
  tune.TuneReportCheckpointCallback.__init__ (tune.MetricsList ["val_loss"])
    "trainer.ckpt" (tune.OnStr "validation_end").

(** A framework run that trains the model and saves a best checkpoint. *)
Definition fit (me : ray_horovod.Worker) (tr : Trainer) : M (results * Trainer) :=
  ret (10 + ray_horovod.rank me,
       set_best_model_path (Some "best.ckpt") (set_model [7%Z; 8%Z] tr)).

Definition accelerator : ray_horovod.HorovodRayAccelerator.t :=
  ray_horovod.HorovodRayAccelerator.mk "horovod_ray" 1 2 false (Some fitting)
    (Some (ray_horovod.start 1 2)).

Definition tuning : Install := mkInstall true true true.

(** The object store after the driver put the trainer in it. *)
Definition cluster_world : World := mkWorld None None [Some fitting] ∅ [].

(** The same, with the relay queue of a Tune session behind handle 0. *)
Definition tuned_cluster_world : World :=
  mkWorld None None [Some fitting] (<[0 := empty_queue]> ∅) [].

Definition returned : list ray_horovod.HorovodRayAccelerator.RunResult :=
  [Some (10, [7%Z; 8%Z], Some "best.ckpt"); None].

End Sample.

(** * Properties *)

Import tune.

Ltac unfold_M :=
  unfold mbind, M_bind, bind, mret, M_ret, ret, raise, lift, modify, gets in *.

Section ReportLemmas.
Context `{HostTypes}.

Lemma scalar_of_item (v : tensor) (x : scalar) :
  scalar_of v = Some x ↔ item v = Ok x.
Proof.
  unfold scalar_of. destruct (item v); split; intros; simplify_eq; done.
Qed.

Lemma all_items_ok (cm : gmap string tensor) :
  map_Forall (fun _ v => is_Some (scalar_of v)) cm →
  all_items cm = Ok (omap scalar_of cm).
Proof.
  unfold all_items.
  apply (map_fold_weak_ind (fun r m =>
    map_Forall (fun _ v => is_Some (scalar_of v)) m → r = Ok (omap scalar_of m))).
  - intros _. by rewrite omap_empty.
  - intros k v m r Hk IH Hall.
    apply map_Forall_insert in Hall as [[x Hx] Hm]; [|done].
    rewrite (IH Hm). apply scalar_of_item in Hx as Hi. rewrite Hi.
    f_equal. symmetry. by apply omap_insert_Some.
Qed.



Lemma NoDup_fst_functional (keys : list (string * string)) :
  NoDup keys.*1 → functional keys.
Proof.
  intros Hnd k m m' Hm Hm'.
  apply list_elem_of_lookup in Hm as [i Hi].
  apply list_elem_of_lookup in Hm' as [j Hj].
  assert (i = j) as ->.
  { apply (NoDup_lookup keys.*1 i j k); [done| |]; rewrite list_lookup_fmap.
    - by rewrite Hi.
    - by rewrite Hj. }
  congruence.
Qed.

Lemma report_loop_ok (cm : gmap string tensor) (keys : list (string * string))
    (acc : gmap string scalar) :
  Forall (available cm) keys →
  ∃ d, report_loop cm keys acc = Ok d
       ∧ dom d = dom acc ∪ list_to_set keys.*1
       ∧ (∀ k, k ∉ keys.*1 → d !! k = acc !! k)
       ∧ (functional keys → ∀ k m, (k, m) ∈ keys → d !! k = cm !! m ≫= scalar_of).
Proof.
  revert acc. induction keys as [|[k0 m0] keys IH]; intros acc Hav.
  - exists acc. split_and!; [done| |done|].
    { simpl. by rewrite (right_id_L ∅ (∪)). }
    intros _ k m Hin. by apply elem_of_nil in Hin.
  - apply Forall_cons in Hav as [[x Hx] Hav]. simpl in Hx.
    destruct (cm !! m0) as [v|] eqn:Hm0; [|done]. simpl in Hx.
    apply scalar_of_item in Hx as Hi.
    destruct (IH (<[k0 := x]> acc) Hav) as (d & Hd & Hdom & Hout & Hin).
    exists d. simpl. rewrite Hm0, Hi. split_and!; [done| | |].
    + rewrite Hdom, dom_insert_L. cbn.
      by rewrite (comm_L (∪) {[k0]} (dom acc)), <-(assoc_L (∪)).
    + intros k Hk. cbn in Hk. apply not_elem_of_cons in Hk as [Hne Hk].
      rewrite (Hout k Hk). by rewrite lookup_insert_ne.
    + intros Hfun k m Hkm.
      assert (functional keys) as Hfun'.
      { intros k1 m1 m1' H1 H2. eapply Hfun; by apply list_elem_of_further. }
      destruct (decide ((k, m) ∈ keys)) as [Hin'|Hnin]; [by apply Hin|].
      apply elem_of_cons in Hkm as [Heq|?]; [|done]. simplify_eq.
      destruct (decide (k0 ∈ keys.*1)) as [Hk0|Hk0].
      * apply list_elem_of_fmap in Hk0 as ([k1 m1] & -> & Hk1). simpl in *.
        assert (m1 = m0) as ->.
        { eapply Hfun; [by apply list_elem_of_further|apply list_elem_of_here]. }
        done.
      * rewrite (Hout _ Hk0), lookup_insert_eq, Hm0. simpl. done.
Qed.


End ReportLemmas.

Section TuneClaims.
Context `{HostTypes}.

Lemma pending_enqueue_at (h : nat) (a : Action) (w : World) :
  is_Some (relay w !! h) → pending h (enqueue_at h a w) = pending h w ++ [a].
Proof.
  intros [q Hq]. unfold pending, enqueue_at. simpl.
  by rewrite lookup_alter_eq, Hq.
Qed.

Lemma pending_enqueue_at_ne (h h' : nat) (a : Action) (w : World) :
  h ≠ h' → pending h' (enqueue_at h a w) = pending h' w.
Proof.
  intros Hne. unfold pending, enqueue_at. simpl. by rewrite lookup_alter_ne.
Qed.

Lemma report_handle_rank0 (self : TuneReportCallback.t) (trainer : Trainer)
    (w : World) :
  session_rank w = Some 0 →
  TuneReportCallback._handle self trainer w =
    match TuneReportCallback._get_report_dict self trainer with
    | Ok (Some d) => session.put_queue (Report d) w
    | Ok None => (Ok tt, w)
    | Raise e => (Raise e, w)
    end.
Proof.
  intros Hr. unfold TuneReportCallback._handle, session.get_actor_rank.
  unfold_M. rewrite Hr. simpl.
  by destruct (TuneReportCallback._get_report_dict self trainer) as [[d|]|e].
Qed.

Lemma report_handle_other_rank (self : TuneReportCallback.t) (trainer : Trainer)
    (w : World) :
  session_rank w ≠ Some 0 →
  TuneReportCallback._handle self trainer w = (Ok tt, w).
Proof.
  intros Hr. unfold TuneReportCallback._handle, session.get_actor_rank.
  unfold_M. by rewrite bool_decide_eq_false_2.
Qed.

Lemma put_queue_active (a : Action) (w : World) (h : nat) :
  session_queue w = Some h →
  session.put_queue a w = (Ok tt, enqueue_at h a w).
Proof. intros Hq. unfold session.put_queue. unfold_M. by rewrite Hq. Qed.

(** C3, amended: when the metric reporter fires outside the sanity-check
    phase on the rank-0 worker, whose session holds the queue [h], and the
    metrics it reads are logged and scalar-convertible, it puts one report
    on that queue.  With no selection, or an empty list or dict (what
    [not self._metrics] accepts), the report has every key of the callback
    metrics, each with its scalar; with a non-empty list it has exactly
    the listed keys, each with the scalar of the metric of that name; with
    a non-empty dict it has exactly the dict's keys, each with the scalar
    of the metric its dict value names; a string selection is stored as
    the one-element list. *)
Theorem report_handle_enqueues (self : TuneReportCallback.t) (trainer : Trainer)
    (w : World) (h : nat) :
  running_sanity_check trainer = false →
  session_rank w = Some 0 →
  session_queue w = Some h →
  let cm := callback_metrics trainer in
  let enqueued d :=
    TuneReportCallback._handle self trainer w
      = (Ok tt, enqueue_at h (Report d) w) in
  (py_not (TuneReportCallback._metrics self) = true →
     map_Forall (fun _ v => is_Some (scalar_of v)) cm →
     enqueued (omap scalar_of cm))
  ∧ (∀ l, TuneReportCallback._metrics self = MetricsList l → l ≠ [] →
       Forall (fun key => is_Some (cm !! key ≫= scalar_of)) l →
       ∃ d, enqueued d ∧ dom d = list_to_set l
            ∧ ∀ key, key ∈ l → d !! key = cm !! key ≫= scalar_of)
  ∧ (∀ sel, TuneReportCallback._metrics self = MetricsDict sel → sel ≠ [] →
       NoDup sel.*1 →
       Forall (fun km => is_Some (cm !! km.2 ≫= scalar_of)) sel →
       ∃ d, enqueued d ∧ dom d = list_to_set sel.*1
            ∧ ∀ key metric, (key, metric) ∈ sel →
                d !! key = cm !! metric ≫= scalar_of)
  ∧ (∀ s on, TuneReportCallback.__init__ (MetricsStr s) on
             = TuneReportCallback.__init__ (MetricsList [s]) on).
Proof.
  intros Hsanity Hrank Hqueue cm enqueued. subst enqueued.
  split_and!.
  - intros Hnot Hall. rewrite report_handle_rank0 by done.
    unfold TuneReportCallback._get_report_dict. rewrite Hsanity, Hnot.
    fold cm. rewrite (all_items_ok cm Hall). by apply put_queue_active.
  - intros l Hl Hne Hav.
    destruct (report_loop_ok cm ((fun key => (key, key)) <$> l) ∅)
      as (d & Hd & Hdom & _ & Hval).
    { apply Forall_fmap. eapply Forall_impl; [exact Hav|]. by intros k Hk. }
    exists d. split_and!.
    + rewrite report_handle_rank0 by done.
      unfold TuneReportCallback._get_report_dict. rewrite Hsanity, Hl.
      destruct l; [done|]. simpl py_not. cbv iota. fold cm.
      unfold selected. rewrite Hd. by apply put_queue_active.
    + rewrite Hdom, dom_empty_L, (left_id_L ∅ (∪)).
      by rewrite <-list_fmap_compose, list_fmap_id.
    + intros key Hkey. apply Hval.
      * intros k m m' Hm Hm'.
        apply list_elem_of_fmap in Hm as (? & ? & _).
        apply list_elem_of_fmap in Hm' as (? & ? & _). by simplify_eq.
      * by apply (list_elem_of_fmap_2 (fun key => (key, key))).
  - intros sel Hsel Hne Hnodup Hav.
    destruct (report_loop_ok cm sel ∅ Hav) as (d & Hd & Hdom & _ & Hval).
    exists d. split_and!.
    + rewrite report_handle_rank0 by done.
      unfold TuneReportCallback._get_report_dict. rewrite Hsanity, Hsel.
      destruct sel; [done|]. simpl py_not. cbv iota. fold cm.
      unfold selected. rewrite Hd. by apply put_queue_active.
    + by rewrite Hdom, dom_empty_L, (left_id_L ∅ (∪)).
    + apply Hval. by apply NoDup_fst_functional.
  - done.
Qed.
End TuneClaims.

(** C3, at a concrete firing: a renaming selection on rank 0. *)
Lemma report_handle_enqueues_witness :
  ∃ d, TuneReportCallback._handle Sample.report_renamed Sample.fitting
         (Sample.worker_world 0)
       = (Ok tt, enqueue_at 0 (Report d) (Sample.worker_world 0))
       ∧ d !! "loss" = Some 5%Z ∧ d !! "mean_accuracy" = Some 9%Z.
Proof.
  destruct (report_handle_enqueues Sample.report_renamed Sample.fitting
              (Sample.worker_world 0) 0 eq_refl eq_refl eq_refl)
    as (_ & _ & Hdict & _).
  destruct (Hdict [("loss", "val_loss"); ("mean_accuracy", "val_acc")] eq_refl)
    as (d & Hd & _ & Hval).
  - discriminate.
  - cbn. apply NoDup_cons. split; [|apply NoDup_singleton].
    intros Hin. apply list_elem_of_singleton in Hin. discriminate.
  - repeat constructor; vm_compute; eauto.
  - exists d. split; [exact Hd|]. split.
    + refine (eq_trans (Hval "loss" "val_loss" _) _); [|reflexivity].
      apply list_elem_of_here.
    + refine (eq_trans (Hval "mean_accuracy" "val_acc" _) _); [|reflexivity].
      apply list_elem_of_further, list_elem_of_here.
Defined.

(** C3 as stated fails for an empty list selection: [not []] holds, so
    the reporter takes the no-selection branch and reports every callback
    metric, here [val_acc] and [val_loss], not exactly the (no) listed
    keys. *)
Lemma empty_list_selection_reports_everything :
  ∃ d, TuneReportCallback._handle Sample.report_empty_list Sample.fitting
         (Sample.worker_world 0)
       = (Ok tt, enqueue_at 0 (Report d) (Sample.worker_world 0))
       ∧ TuneReportCallback._metrics Sample.report_empty_list = MetricsList []
       ∧ d !! "val_loss" = Some 5%Z
       ∧ dom d ≠ list_to_set [].
Proof.
  exists (omap scalar_of Sample.metrics).
  split; [reflexivity|]. split; [reflexivity|]. split; [reflexivity|].
  intros Hdom.
  assert ("val_loss" ∈ dom (omap scalar_of Sample.metrics)) as Hin.
  { apply elem_of_dom. exists 5%Z. reflexivity. }
  rewrite Hdom in Hin. simpl in Hin. by apply not_elem_of_empty in Hin.
Qed.

Section MissingKey.
Context `{HostTypes}.



End MissingKey.




Section SanityCheck.
Context `{HostTypes}.

(** C7: a firing of the metric reporter or of the checkpoint reporter
    while the trainer runs its sanity check returns at once and leaves
    the process untouched, whatever its rank: no queue gains an action. *)
Theorem sanity_check_enqueues_nothing (report : TuneReportCallback.t)
    (checkpoint : _TuneCheckpointCallback.t) (trainer : Trainer) (w : World) :
  running_sanity_check trainer = true →
  TuneReportCallback._handle report trainer w = (Ok tt, w)
  ∧ _TuneCheckpointCallback._handle checkpoint trainer w = (Ok tt, w)
  ∧ ∀ h, pending h (TuneReportCallback._handle report trainer w).2 = pending h w
         ∧ pending h (_TuneCheckpointCallback._handle checkpoint trainer w).2
           = pending h w.
Proof.
  intros Hsanity.
  assert (TuneReportCallback._handle report trainer w = (Ok tt, w)) as Hr.
  { destruct (decide (session_rank w = Some 0)) as [H0|H0].
    - rewrite report_handle_rank0 by done.
      unfold TuneReportCallback._get_report_dict. by rewrite Hsanity.
    - by apply report_handle_other_rank. }
  assert (_TuneCheckpointCallback._handle checkpoint trainer w = (Ok tt, w)) as Hc.
  { unfold _TuneCheckpointCallback._handle. by rewrite Hsanity. }
  rewrite Hr, Hc. done.
Qed.

End SanityCheck.

(** C7, at concrete firings on rank 0 and on rank 1. *)
Lemma sanity_check_enqueues_nothing_witness :
  pending 0
    (TuneReportCallback._handle Sample.report_all Sample.sanity_checking
       (Sample.worker_world 0)).2 = []
  ∧ pending 0
      (_TuneCheckpointCallback._handle Sample.checkpointer
         Sample.sanity_checking (Sample.worker_world 1)).2 = [].
Proof.
  split.
  - destruct (sanity_check_enqueues_nothing Sample.report_all
                Sample.checkpointer Sample.sanity_checking
                (Sample.worker_world 0) eq_refl) as (_ & _ & Hp).
    exact (proj1 (Hp 0)).
  - destruct (sanity_check_enqueues_nothing Sample.report_all
                Sample.checkpointer Sample.sanity_checking
                (Sample.worker_world 1) eq_refl) as (_ & _ & Hp).
    exact (proj2 (Hp 0)).
Defined.

Section Checkpoint.
Context `{HostTypes}.

Lemma checkpoint_handle_run (self : _TuneCheckpointCallback.t)
    (trainer : Trainer) (w : World) :
  running_sanity_check trainer = false →
  _TuneCheckpointCallback._handle self trainer w =
    let w1 := log (Dumped (dump_checkpoint trainer)) w in
    if bool_decide (session_rank w = Some 0) then
      session.put_queue
        (CreateCheckpoint (dump_checkpoint trainer) (global_step trainer)
           (_TuneCheckpointCallback._filename self)) w1
    else (Ok tt, w1).
Proof.
  intros Hsanity. unfold _TuneCheckpointCallback._handle. rewrite Hsanity.
  unfold session.get_actor_rank. unfold_M. simpl.
  by destruct (bool_decide (session_rank w = Some 0)).
Qed.

Lemma put_queue_trace (a : Action) (w : World) :
  trace (session.put_queue a w).2 = trace w.
Proof.
  unfold session.put_queue. unfold_M. by destruct (session_queue w).
Qed.

(** C8: outside the sanity-check phase every firing of the checkpoint
    reporter dumps the full snapshot in the firing process, whatever its
    rank; a process whose rank is not 0 leaves every queue as it was, and
    the rank-0 process puts the write of that snapshot at the back of its
    session's queue. *)
Theorem checkpoint_snapshot_everywhere_write_on_rank0
    (self : _TuneCheckpointCallback.t) (trainer : Trainer) (w : World) :
  running_sanity_check trainer = false →
  let w' := (_TuneCheckpointCallback._handle self trainer w).2 in
  let write :=
    CreateCheckpoint (dump_checkpoint trainer) (global_step trainer)
      (_TuneCheckpointCallback._filename self) in
  trace w' = trace w ++ [Dumped (dump_checkpoint trainer)]
  ∧ (session_rank w ≠ Some 0 → relay w' = relay w)
  ∧ (session_rank w = Some 0 → ∀ h,
       session_queue w = Some h → is_Some (relay w !! h) →
       pending h w' = pending h w ++ [write]).
Proof.
  intros Hsanity w' write. subst w'.
  rewrite checkpoint_handle_run by done. cbv zeta.
  split_and!.
  - destruct (bool_decide (session_rank w = Some 0)); [|done].
    by rewrite put_queue_trace.
  - intros Hrank. by rewrite bool_decide_eq_false_2.
  - intros Hrank h Hq Hh. rewrite bool_decide_eq_true_2 by done.
    rewrite (put_queue_active _ _ h) by done. simpl.
    by rewrite pending_enqueue_at.
Qed.

End Checkpoint.

(** C8, at concrete firings on rank 1 and on rank 0. *)
Lemma checkpoint_snapshot_everywhere_write_on_rank0_witness :
  trace (_TuneCheckpointCallback._handle Sample.checkpointer Sample.fitting
           (Sample.worker_world 1)).2 = [Dumped "snapshot@12"]
  ∧ pending 0 (_TuneCheckpointCallback._handle Sample.checkpointer
                 Sample.fitting (Sample.worker_world 1)).2 = []
  ∧ pending 0 (_TuneCheckpointCallback._handle Sample.checkpointer
                 Sample.fitting (Sample.worker_world 0)).2
    = [CreateCheckpoint "snapshot@12" 12 "checkpoint"].
Proof.
  destruct (checkpoint_snapshot_everywhere_write_on_rank0 Sample.checkpointer
              Sample.fitting (Sample.worker_world 1) eq_refl)
    as (Htrace & Hother & _).
  destruct (checkpoint_snapshot_everywhere_write_on_rank0 Sample.checkpointer
              Sample.fitting (Sample.worker_world 0) eq_refl)
    as (_ & _ & Hzero).
  split; [exact Htrace|]. split.
  - unfold pending. rewrite Hother; [reflexivity|discriminate].
  - refine (Hzero eq_refl 0 eq_refl _). by eexists.
Defined.

Section Combined.
Context `{HostTypes}.


Lemma report_handle_sanity (self : TuneReportCallback.t) (trainer : Trainer)
    (w : World) :
  running_sanity_check trainer = true →
  TuneReportCallback._handle self trainer w = (Ok tt, w).
Proof.
  intros Hsanity. destruct (decide (session_rank w = Some 0)) as [H0|H0].
  - rewrite report_handle_rank0 by done.
    unfold TuneReportCallback._get_report_dict. by rewrite Hsanity.
  - by apply report_handle_other_rank.
Qed.

Lemma checkpoint_handle_sanity (self : _TuneCheckpointCallback.t)
    (trainer : Trainer) (w : World) :
  running_sanity_check trainer = true →
  _TuneCheckpointCallback._handle self trainer w = (Ok tt, w).
Proof.
  intros Hsanity. unfold _TuneCheckpointCallback._handle. by rewrite Hsanity.
Qed.

Lemma pending_enqueue_at_added (h' h : nat) (a : Action) (w : World) :
  pending h (enqueue_at h' a w) = pending h w ++ added h' h a w.
Proof.
  unfold added. case_bool_decide as Hh.
  - subst h'. unfold pending, enqueue_at. simpl. rewrite lookup_alter_eq.
    by destruct (relay w !! h).
  - rewrite pending_enqueue_at_ne by done. by rewrite app_nil_r.
Qed.

Lemma added_cases (h' h : nat) (a : Action) (w : World) :
  added h' h a w = [] ∨ (added h' h a w = [a] ∧ h' = h ∧ is_Some (relay w !! h)).
Proof.
  unfold added. case_bool_decide; [|by left].
  destruct (relay w !! h) eqn:Hq; [right|by left]. eauto.
Qed.

Lemma added_enqueue_at (h' h : nat) (a b : Action) (w : World) :
  added h' h a (enqueue_at h' b w) = added h' h a w.
Proof.
  unfold added. case_bool_decide; [|done]. subst.
  unfold enqueue_at. simpl. rewrite lookup_alter_eq.
  by destruct (relay w !! h).
Qed.

(** C9: a firing of the combined reporter is gated by the combined
    reporter's own event list; when the event is listed it runs the
    checkpoint reporter and then the metric reporter on the same trainer.
    Whatever the process, what the firing adds to a queue is nothing, the
    checkpoint write alone, or the checkpoint write followed at once by
    the report; on rank 0 outside the sanity-check phase, with the
    session's queue [h] alive and a report dictionary [d] obtained, it
    adds exactly the write and then the report of [d]. *)
Theorem combined_checkpoint_before_report
    (self : TuneReportCheckpointCallback.t) (trainer : Trainer) (w : World)
    (event : string) (h : nat) :
  let fired :=
    on_event (TuneReportCheckpointCallback._on self) event
      (TuneReportCheckpointCallback._handle self trainer) in
  let write :=
    CreateCheckpoint (dump_checkpoint trainer) (global_step trainer)
      (_TuneCheckpointCallback._filename
         (TuneReportCheckpointCallback._checkpoint self)) in
  (event ∉ TuneReportCheckpointCallback._on self → fired w = (Ok tt, w))
  ∧ (event ∈ TuneReportCheckpointCallback._on self →
     fired w =
       (_TuneCheckpointCallback._handle
          (TuneReportCheckpointCallback._checkpoint self) trainer;;
        TuneReportCallback._handle
          (TuneReportCheckpointCallback._report self) trainer) w)
  ∧ (∃ new, pending h (fired w).2 = pending h w ++ new
            ∧ (new = [] ∨ new = [write] ∨ ∃ d, new = [write; Report d]))
  ∧ (event ∈ TuneReportCheckpointCallback._on self →
     running_sanity_check trainer = false →
     session_rank w = Some 0 → session_queue w = Some h →
     is_Some (relay w !! h) →
     ∀ d, TuneReportCallback._get_report_dict
            (TuneReportCheckpointCallback._report self) trainer = Ok (Some d) →
          pending h (fired w).2 = pending h w ++ [write; Report d]).
Proof.
  intros fired write. subst fired. unfold on_event.
  split_and!.
  - intros Hev. by rewrite bool_decide_eq_false_2.
  - intros Hev. by rewrite bool_decide_eq_true_2.
  - case_bool_decide as Hev; [|exists []; split; [by rewrite app_nil_r|by left]].
    unfold TuneReportCheckpointCallback._handle.
    unfold mbind, M_bind, bind.
    destruct (running_sanity_check trainer) eqn:Hsanity.
    { rewrite checkpoint_handle_sanity, report_handle_sanity by done.
      exists []. split; [by rewrite app_nil_r|by left]. }
    rewrite checkpoint_handle_run by done. cbv zeta. fold write.
    case_bool_decide as Hrank.
    + destruct (session_queue w) as [h'|] eqn:Hq.
      * rewrite (put_queue_active _ _ h') by done.
        rewrite report_handle_rank0 by done.
        destruct (TuneReportCallback._get_report_dict _ trainer) as [[d|]|e].
        -- rewrite (put_queue_active _ _ h') by done. simpl.
           rewrite !pending_enqueue_at_added, added_enqueue_at.
           change (pending h (log (Dumped (dump_checkpoint trainer)) w))
             with (pending h w).
           change (added h' h ?a (log (Dumped (dump_checkpoint trainer)) w))
             with (added h' h a w).
           rewrite <-app_assoc.
           destruct (added_cases h' h write w) as [Hw|(Hw & -> & Hs)].
           ++ exists []. split; [|by left]. f_equal.
              unfold added in *. case_bool_decide; [|done].
              by destruct (relay w !! h).
           ++ exists [write; Report d]. split; [|right; right; by exists d].
              f_equal. unfold added. rewrite bool_decide_eq_true_2 by done.
              by destruct Hs as [? ->].
        -- simpl. rewrite pending_enqueue_at_added.
           change (pending h (log (Dumped (dump_checkpoint trainer)) w))
             with (pending h w).
           change (added h' h ?a (log (Dumped (dump_checkpoint trainer)) w))
             with (added h' h a w).
           destruct (added_cases h' h write w) as [Hw|(Hw & _)]; rewrite Hw.
           ++ exists []. split; [done|by left].
           ++ exists [write]. split; [done|right; by left].
        -- simpl. rewrite pending_enqueue_at_added.
           change (pending h (log (Dumped (dump_checkpoint trainer)) w))
             with (pending h w).
           change (added h' h ?a (log (Dumped (dump_checkpoint trainer)) w))
             with (added h' h a w).
           destruct (added_cases h' h write w) as [Hw|(Hw & _)]; rewrite Hw.
           ++ exists []. split; [done|by left].
           ++ exists [write]. split; [done|right; by left].
      * unfold session.put_queue at 1. unfold_M. simpl. rewrite Hq.
        rewrite report_handle_rank0 by done.
        exists []. split; [|by left]. rewrite app_nil_r.
        destruct (TuneReportCallback._get_report_dict _ trainer) as [[d|]|e];
          [|done|done].
        unfold session.put_queue. unfold_M. simpl. by rewrite Hq.
    + rewrite report_handle_other_rank by done.
      exists []. split; [by rewrite app_nil_r|by left].
  - intros Hev Hsanity Hrank Hq Hh d Hd.
    rewrite bool_decide_eq_true_2 by done.
    unfold TuneReportCheckpointCallback._handle.
    unfold mbind, M_bind, bind.
    rewrite checkpoint_handle_run by done. cbv zeta. fold write.
    rewrite bool_decide_eq_true_2 by done.
    rewrite (put_queue_active _ _ h) by done.
    rewrite report_handle_rank0 by done. rewrite Hd.
    rewrite (put_queue_active _ _ h) by done. simpl.
    rewrite !pending_enqueue_at_added, added_enqueue_at.
    change (pending h (log (Dumped (dump_checkpoint trainer)) w))
      with (pending h w).
    change (added h h ?a (log (Dumped (dump_checkpoint trainer)) w))
      with (added h h a w).
    rewrite <-app_assoc. f_equal.
    unfold added. rewrite bool_decide_eq_true_2 by done.
    by destruct Hh as [? ->].
Qed.

End Combined.

(** C9, at a concrete firing on rank 0: the write, then the report. *)
Lemma combined_checkpoint_before_report_witness :
  pending 0
    (on_event (TuneReportCheckpointCallback._on Sample.combined) "validation_end"
       (TuneReportCheckpointCallback._handle Sample.combined Sample.fitting)
       (Sample.worker_world 0)).2
  = [CreateCheckpoint "snapshot@12" 12 "trainer.ckpt";
     Report (<["val_loss" := 5%Z]> ∅)].
Proof.
  destruct (combined_checkpoint_before_report Sample.combined Sample.fitting
              (Sample.worker_world 0) "validation_end" 0)
    as (_ & _ & _ & Hpos).
  refine (Hpos _ eq_refl eq_refl eq_refl _ (<["val_loss" := 5%Z]> ∅) eq_refl).
  - apply list_elem_of_here.
  - by eexists.
Defined.

Section ResourcesClaims.
Context `{FloatOps}.


End ResourcesClaims.

Import ray_horovod.

(** C6: when Horovod cannot be imported, constructing the accelerator
    raises at once, whatever the arguments; no accelerator is returned,
    and the message names Horovod and carries the installation page. *)
Theorem init_without_horovod_raises `{HostTypes} (env : Install)
    (num_hosts num_slots : nat) (use_gpu : bool) :
  HOROVOD_AVAILABLE env = false →
  ∃ msg, HorovodRayAccelerator.__init__ env num_hosts num_slots use_gpu
         = Raise (RuntimeError msg)
         ∧ contains "Horovod is not installed" msg = true
         ∧ contains "https://horovod.readthedocs.io/en/stable/install_include.html"
             msg = true.
Proof.
  intros Hav. exists HorovodRayAccelerator.not_installed_message.
  unfold HorovodRayAccelerator.__init__. rewrite Hav. simpl negb. cbv iota.
  split; [done|]. split; vm_compute; reflexivity.
Qed.

(** C6, at a concrete construction: two hosts, four slots, GPUs. *)
Lemma init_without_horovod_raises_witness :
  is_ok (HorovodRayAccelerator.__init__ (H := Sample.host)
           (mkInstall false true true) 2 4 true) = false.
Proof.
  destruct (init_without_horovod_raises (H := Sample.host)
              (mkInstall false true true) 2 4 true eq_refl)
    as (msg & Hmsg & _).
  exact (f_equal is_ok Hmsg).
Defined.

Section Horovod.
Context `{HostTypes}.
Variable fit : Worker → Trainer → M (results * Trainer).

Abbreviation train_remote := (HorovodRayAccelerator.train_remote fit).
Abbreviation train_remote_call := (HorovodRayAccelerator.train_remote_call fit).
Abbreviation train_dispatch := (HorovodRayAccelerator.train_dispatch fit).
Abbreviation train := (HorovodRayAccelerator.train fit).


Lemma train_remote_result (me : Worker) (ref : nat) (queue : option nat)
    (w w' : World) (r : HorovodRayAccelerator.RunResult) :
  train_remote me ref queue w = (Ok r, w') →
  ∃ tr0 w0 res tr,
    fit me tr0 w0 = (Ok (res, tr), w')
    ∧ r = if bool_decide (rank me ≠ 0) then None
          else Some (res, model tr, reported_path tr).
Proof.
  unfold HorovodRayAccelerator.train_remote, ray.get, session.init_session.
  unfold_M. intros Hrun.
  destruct (objects w !! ref) as [[tr0|]|]; simpl in Hrun; [| |done].
  - destruct queue as [q|]; simpl in Hrun.
    + match type of Hrun with
      | context [fit me ?t ?w0] =>
          destruct (fit me t w0) as [[[res tr]|e] w1] eqn:Hfit
      end; [|done].
      unfold reported_path.
      destruct (bool_decide (rank me ≠ 0)); simpl in Hrun; simplify_eq;
        do 4 eexists; (split; [exact Hfit|]); done.
    + match type of Hrun with
      | context [fit me ?t ?w0] =>
          destruct (fit me t w0) as [[[res tr]|e] w1] eqn:Hfit
      end; [|done].
      unfold reported_path.
      destruct (bool_decide (rank me ≠ 0)); simpl in Hrun; simplify_eq;
        do 4 eexists; (split; [exact Hfit|]); done.
  - by destruct queue.
Qed.

Lemma count_rank0 (n : nat) :
  length (filter (fun r => r = 0) (seq 1 n)) = 0.
Proof.
  assert (∀ s, 0 < s → length (filter (fun r => r = 0) (seq s n)) = 0) as Hs.
  { induction n as [|n IH]; intros s Hpos; [done|]. simpl.
    rewrite filter_cons_False by lia. apply IH. lia. }
  apply Hs. lia.
Qed.

(** C1: in a run of N >= 1 workers whose Horovod ranks are 0..N-1 in some
    order, if every worker's [train_remote] returns, then there are N
    returned values, exactly one of them is not [None], each worker of
    rank other than 0 returned [None], and the worker of rank 0 returned
    the triple of the framework's results, the trained model's state
    dictionary and the best checkpoint path, that path being [None] when
    its trainer has no checkpoint callback. *)
Theorem exactly_one_worker_result (workers : list Worker)
    (rs : list HorovodRayAccelerator.RunResult) (ref : nat)
    (queue : option nat) :
  (1 ≤ length workers)%nat →
  rank <$> workers ≡ₚ seq 0 (length workers) →
  Forall2 (fun me r => ∃ w w', train_remote me ref queue w = (Ok r, w'))
    workers rs →
  length rs = length workers
  ∧ length (filter is_Some rs) = 1
  ∧ Forall2
      (fun me r =>
         (rank me ≠ 0 → r = None)
         ∧ (rank me = 0 →
            ∃ tr0 w0 res tr w',
              fit me tr0 w0 = (Ok (res, tr), w')
              ∧ r = Some (res, model tr, reported_path tr)
              ∧ (checkpoint_callback tr = None → reported_path tr = None)))
      workers rs.
Proof.
  intros Hn Hperm Hruns.
  assert (Forall2 (fun me r => is_Some r ↔ rank me = 0) workers rs) as Hiff.
  { eapply Forall2_impl; [exact Hruns|]. intros me r (w & w' & Hrun).
    apply train_remote_result in Hrun as (tr0 & w0 & res & tr & _ & ->).
    case_bool_decide; split; intros Hs;
      first [done | by destruct Hs | lia | by eexists]. }
  split_and!.
  - symmetry. by eapply Forall2_length.
  - transitivity (length (filter (fun r => r = 0) (rank <$> workers))).
    + clear Hruns Hperm Hn. unfold HorovodRayAccelerator.RunResult in *.
      induction Hiff as [|me r ws rs' Hhd _ IH]; [done|].
      rewrite fmap_cons.
      destruct (decide (rank me = 0)) as [H0|H0].
      * rewrite (filter_cons_True is_Some) by by apply Hhd.
        rewrite (filter_cons_True (fun r => r = 0)) by done.
        simpl. by rewrite IH.
      * rewrite (filter_cons_False is_Some) by (intros Hs; by apply H0, Hhd).
        by rewrite (filter_cons_False (fun r => r = 0)).
    + rewrite Hperm. destruct (length workers) as [|n]; [lia|].
      rewrite <-cons_seq, filter_cons_True by done. simpl. by rewrite count_rank0.
  - eapply Forall2_impl; [exact Hruns|]. intros me r (w & w' & Hrun).
    apply train_remote_result in Hrun as (tr0 & w0 & res & tr & Hfit & ->).
    split.
    + intros Hne. by rewrite bool_decide_eq_true_2.
    + intros H0. rewrite bool_decide_eq_false_2 by lia.
      exists tr0, w0, res, tr, w'. split_and!; [done|done|].
      unfold reported_path. by intros ->.
Qed.

Lemma train_remote_call_args (me : Worker) (ref : nat) (queue : option nat) :
  train_remote_call me [ObjectRef ref; queue_obj queue]
  = train_remote me ref queue.
Proof. by destruct queue. Qed.








End Horovod.

(** C1, at a concrete run: two workers, the second of rank 1. *)
Lemma exactly_one_worker_result_witness :
  length (filter is_Some Sample.returned) = 1.
Proof.
  refine (proj1 (proj2 (exactly_one_worker_result Sample.fit
            (workers (start 1 2)) Sample.returned 0 None _ _ _))).
  - simpl; lia.
  - reflexivity.
  - repeat constructor; exists Sample.cluster_world; eexists; reflexivity.
Defined.



(** * Further properties of the callbacks *)

Section ReporterExtras.
Context `{HostTypes}.

Lemma report_handle_cases (self : TuneReportCallback.t)
    (trainer : Trainer) (w : World) :
  let r := TuneReportCallback._handle self trainer w in
  (session_rank w ≠ Some 0 → r = (Ok tt, w))
  ∧ (∀ e, r.1 = Raise e → r.2 = w)
  ∧ (r.1 = Ok tt →
     r.2 = w
     ∨ ∃ h d, session_queue w = Some h
              ∧ TuneReportCallback._get_report_dict self trainer = Ok (Some d)
              ∧ r.2 = enqueue_at h (Report d) w).
Proof.
  intros r. subst r.
  destruct (decide (session_rank w = Some 0)) as [Hrank|Hrank].
  - rewrite report_handle_rank0 by done.
    destruct (TuneReportCallback._get_report_dict self trainer)
      as [[d|]|e0] eqn:Hd.
    + destruct (session_queue w) as [h|] eqn:Hq.
      * rewrite (put_queue_active _ _ h) by done. simpl.
        split_and!; [done|done|]. intros _. right. by exists h, d.
      * unfold session.put_queue. unfold_M. rewrite Hq. simpl.
        split_and!; [done|done|]. intros _. by left.
    + simpl. split_and!; [done|done|]. intros _. by left.
    + simpl. split_and!; [done|done|done].
  - rewrite report_handle_other_rank by done. simpl.
    split_and!; [done|done|]. intros _. by left.
Qed.

(** X1: a firing of the metric reporter is all or nothing.  On a process
    whose session rank is not 0 it returns with the process untouched;
    when it raises, the process is as it was before the firing; when it
    returns, the process is untouched or differs by one report, of the
    dictionary [_get_report_dict] computed, at the back of the session's
    queue. *)
Theorem report_handle_all_or_nothing (self : TuneReportCallback.t)
    (trainer : Trainer) (w : World) :
  let r := TuneReportCallback._handle self trainer w in
  (session_rank w ≠ Some 0 → r = (Ok tt, w))
  ∧ (∀ e, r.1 = Raise e → r.2 = w)
  ∧ (r.1 = Ok tt →
     r.2 = w
     ∨ ∃ h d, session_queue w = Some h
              ∧ TuneReportCallback._get_report_dict self trainer = Ok (Some d)
              ∧ r.2 = enqueue_at h (Report d) w).
Proof. apply report_handle_cases. Qed.

Lemma item_not_scalar (v : tensor) :
  scalar_of v = None → item v = Raise (ValueError not_scalar_message).
Proof.
  unfold scalar_of, item. by destruct v as [|x [|y v]].
Qed.

Lemma all_items_not_scalar (cm : gmap string tensor) (k : string) (v : tensor) :
  cm !! k = Some v → scalar_of v = None →
  all_items cm = Raise (ValueError not_scalar_message).
Proof.
  intros Hk Hv.
  cut ((all_items cm = Raise (ValueError not_scalar_message)
        ∨ ∃ d, all_items cm = Ok d)
       ∧ ((∃ k v, cm !! k = Some v ∧ scalar_of v = None) →
          all_items cm = Raise (ValueError not_scalar_message))).
  { intros [_ Hraise]. apply Hraise. eauto. }
  clear k v Hk Hv. unfold all_items.
  apply (map_fold_weak_ind (fun r m =>
    (r = Raise (ValueError not_scalar_message) ∨ ∃ d, r = Ok d)
    ∧ ((∃ k v, m !! k = Some v ∧ scalar_of v = None) →
       r = Raise (ValueError not_scalar_message)))).
  - split; [right; by eexists|]. intros (k & v & Hk & _).
    by rewrite lookup_empty in Hk.
  - intros i x m r Hi [Hshape IH]. split.
    + destruct Hshape as [->|[d ->]]; [by left|].
      destruct (scalar_of x) as [y|] eqn:Hx.
      * apply scalar_of_item in Hx. rewrite Hx. right. by eexists.
      * rewrite (item_not_scalar x Hx). by left.
    + intros (k & v & Hk & Hv).
      destruct Hshape as [->|[d ->]]; [done|].
      destruct (decide (i = k)) as [->|Hne].
      * rewrite lookup_insert_eq in Hk. simplify_eq.
        by rewrite (item_not_scalar v Hv).
      * rewrite lookup_insert_ne in Hk by done.
        assert (Ok d = Raise (ValueError not_scalar_message)) as Habs
          by (apply IH; eauto).
        discriminate Habs.
Qed.

(** X2: with no selection (or an empty one), a callback metric that is
    not a one-element tensor makes the rank-0 firing outside the sanity
    check raise [ValueError]; nothing is reported and the process is as
    it was. *)
Theorem report_all_non_scalar_raises (self : TuneReportCallback.t)
    (trainer : Trainer) (w : World) (k : string) (v : tensor) :
  running_sanity_check trainer = false →
  session_rank w = Some 0 →
  py_not (TuneReportCallback._metrics self) = true →
  callback_metrics trainer !! k = Some v →
  scalar_of v = None →
  TuneReportCallback._handle self trainer w
  = (Raise (ValueError not_scalar_message), w).
Proof.
  intros Hsanity Hrank Hnot Hk Hv.
  rewrite report_handle_rank0 by done.
  unfold TuneReportCallback._get_report_dict. rewrite Hsanity, Hnot.
  by rewrite (all_items_not_scalar _ k v).
Qed.

(** X3: a string selection is one key, whatever the string: the callback
    built from the string [s] (the empty string included) looks up the
    metric named [s] on a rank-0 firing outside the sanity check, raises
    [KeyError] of [s] when it is not logged, and reports it alone, under
    the name [s], when it is a one-element tensor. *)
Theorem string_selection_is_one_key (s : string) (on : on_arg)
    (trainer : Trainer) (w : World) (h : nat) :
  running_sanity_check trainer = false →
  session_rank w = Some 0 →
  session_queue w = Some h →
  let self := TuneReportCallback.__init__ (MetricsStr s) on in
  (callback_metrics trainer !! s = None →
   TuneReportCallback._handle self trainer w = (Raise (KeyError s), w))
  ∧ (∀ x, callback_metrics trainer !! s = Some [x] →
     TuneReportCallback._handle self trainer w
     = (Ok tt, enqueue_at h (Report (<[s := x]> ∅)) w)).
Proof.
  intros Hsanity Hrank Hq self. subst self.
  assert (TuneReportCallback._get_report_dict
            (TuneReportCallback.__init__ (MetricsStr s) on) trainer
          = match report_loop (callback_metrics trainer) [(s, s)] ∅ with
            | Ok d => Ok (Some d)
            | Raise e => Raise e
            end) as Hdict.
  { unfold TuneReportCallback._get_report_dict. by rewrite Hsanity. }
  split.
  - intros Hs. rewrite report_handle_rank0, Hdict by done.
    unfold report_loop, tensor in *. by rewrite Hs.
  - intros x Hs. rewrite report_handle_rank0, Hdict by done.
    unfold report_loop, tensor in *. rewrite Hs. simpl.
    by apply put_queue_active.
Qed.

(** X4: the report of a list selection does not depend on the order of
    the list nor on repetitions in it: two lists with the same elements,
    whose metrics are logged one-element tensors, give the same report
    dictionary. *)
Theorem list_selection_order_irrelevant (on on' : list string)
    (l l' : list string) (trainer : Trainer) :
  (∀ key, key ∈ l ↔ key ∈ l') →
  Forall (fun key => is_Some (callback_metrics trainer !! key ≫= scalar_of)) l →
  TuneReportCallback._get_report_dict
    (TuneReportCallback.mk on (MetricsList l)) trainer
  = TuneReportCallback._get_report_dict
      (TuneReportCallback.mk on' (MetricsList l')) trainer.
Proof.
  intros Hsame Hav.
  unfold TuneReportCallback._get_report_dict.
  destruct (running_sanity_check trainer); [done|]. simpl.
  destruct l as [|k0 l0].
  { destruct l' as [|k' l'']; [done|].
    exfalso. apply (elem_of_nil k'), Hsame. apply list_elem_of_here. }
  destruct l' as [|k0' l0'].
  { exfalso. apply (elem_of_nil k0), Hsame. apply list_elem_of_here. }
  set (l := k0 :: l0) in *. set (l' := k0' :: l0') in *.
  assert (Forall (fun key => is_Some (callback_metrics trainer !! key ≫= scalar_of)) l')
    as Hav'.
  { apply Forall_forall. intros key Hkey. apply Hsame in Hkey.
    by eapply Forall_forall in Hav. }
  assert (∀ m : list string, functional ((fun key => (key, key)) <$> m)) as Hfun.
  { intros m k a b Ha Hb.
    apply list_elem_of_fmap in Ha as (? & ? & _).
    apply list_elem_of_fmap in Hb as (? & ? & _). by simplify_eq. }
  destruct (report_loop_ok (callback_metrics trainer)
              ((fun key => (key, key)) <$> l) ∅)
    as (d & Hd & _ & Hout & Hval).
  { apply Forall_fmap. eapply Forall_impl; [exact Hav|]. by intros ? ?. }
  destruct (report_loop_ok (callback_metrics trainer)
              ((fun key => (key, key)) <$> l') ∅)
    as (d' & Hd' & _ & Hout' & Hval').
  { apply Forall_fmap. eapply Forall_impl; [exact Hav'|]. by intros ? ?. }
  change (selected (MetricsList l)) with ((fun key => (key, key)) <$> l).
  change (selected (MetricsList l')) with ((fun key => (key, key)) <$> l').
  rewrite Hd, Hd'. do 2 f_equal. apply map_eq. intros key.
  assert (∀ m : list string, ((fun key => (key, key)) <$> m).*1 = m) as Hfst.
  { intros m. rewrite <-list_fmap_compose. apply list_fmap_id. }
  destruct (decide (key ∈ l)) as [Hin|Hnin].
  - rewrite (Hval (Hfun l) key key), (Hval' (Hfun l') key key); [done| |].
    + apply (list_elem_of_fmap_2 (fun key => (key, key))). by apply Hsame.
    + by apply (list_elem_of_fmap_2 (fun key => (key, key))).
  - rewrite Hout, Hout'; [done| |].
    + rewrite Hfst. intros Hin. by apply Hnin, Hsame.
    + by rewrite Hfst.
Qed.

(** X5: no firing of the metric reporter or of the checkpoint reporter
    removes or reorders what is pending: on every queue the contents
    before the firing are a prefix of the contents after it, and a
    firing adds at most one action. *)
Theorem callbacks_only_append (report : TuneReportCallback.t)
    (checkpoint : _TuneCheckpointCallback.t) (trainer : Trainer) (w : World)
    (h : nat) :
  (∃ new, pending h (TuneReportCallback._handle report trainer w).2
          = pending h w ++ new ∧ (length new ≤ 1)%nat)
  ∧ (∃ new, pending h (_TuneCheckpointCallback._handle checkpoint trainer w).2
            = pending h w ++ new ∧ (length new ≤ 1)%nat).
Proof.
  assert (∀ h' a w0, (length (added h' h a w0) ≤ 1)%nat) as Hlen.
  { intros h' a w0. unfold added. case_bool_decide; [|simpl; lia].
    destruct (relay w0 !! h); simpl; lia. }
  split.
  - destruct (report_handle_cases report trainer w) as (_ & Hraise & Hok).
    destruct (TuneReportCallback._handle report trainer w) as [[[]|e] w'].
    + destruct (Hok eq_refl) as [Hw|(h' & d & _ & _ & Hw)]; simpl in *; subst w'.
      * exists []. split; [by rewrite app_nil_r|simpl; lia].
      * eexists. split; [apply pending_enqueue_at_added|apply Hlen].
    + simpl in *. rewrite (Hraise e eq_refl).
      exists []. split; [by rewrite app_nil_r|simpl; lia].
  - destruct (running_sanity_check trainer) eqn:Hsanity.
    + rewrite checkpoint_handle_sanity by done.
      exists []. split; [by rewrite app_nil_r|simpl; lia].
    + rewrite checkpoint_handle_run by done. cbv zeta.
      case_bool_decide.
      * destruct (session_queue w) as [h'|] eqn:Hq.
        -- rewrite (put_queue_active _ _ h') by done. simpl.
           rewrite pending_enqueue_at_added.
           eexists. split; [reflexivity|apply Hlen].
        -- unfold session.put_queue. unfold_M. simpl. rewrite Hq. simpl.
           exists []. split; [by rewrite app_nil_r|simpl; lia].
      * simpl. exists []. split; [by rewrite app_nil_r|simpl; lia].
Qed.

End ReporterExtras.

(** X1, at a concrete firing that raises: the queue is as it was. *)
Lemma report_handle_all_or_nothing_witness :
  (TuneReportCallback._handle Sample.report_f1 Sample.fitting
     (Sample.worker_world 0)).2 = Sample.worker_world 0.
Proof.
  destruct (report_handle_all_or_nothing Sample.report_f1 Sample.fitting
              (Sample.worker_world 0)) as (_ & Hraise & _).
  exact (Hraise (KeyError "val_f1") eq_refl).
Defined.

(** X2, at a concrete firing: a two-element tensor among the metrics. *)
Lemma report_all_non_scalar_raises_witness :
  TuneReportCallback._handle Sample.report_all
    (mkTrainer false (<["confusion" := [1%Z; 2%Z]]> Sample.metrics) 12
       "snapshot@12" [1%Z] None false None false)
    (Sample.worker_world 0)
  = (Raise (ValueError not_scalar_message), Sample.worker_world 0).
Proof.
  apply (report_all_non_scalar_raises (H := Sample.host) Sample.report_all
           _ _ "confusion" [1%Z; 2%Z]); reflexivity.
Defined.

(** X3, at concrete firings: the empty string is a key like any other. *)
Lemma string_selection_is_one_key_witness :
  TuneReportCallback._handle
    (TuneReportCallback.__init__ (MetricsStr "") (OnStr "validation_end"))
    Sample.fitting (Sample.worker_world 0)
  = (Raise (KeyError ""), Sample.worker_world 0)
  ∧ TuneReportCallback._handle
      (TuneReportCallback.__init__ (MetricsStr "val_acc") (OnStr "validation_end"))
      Sample.fitting (Sample.worker_world 0)
    = (Ok tt, enqueue_at 0 (Report (<["val_acc" := 9%Z]> ∅))
                (Sample.worker_world 0)).
Proof.
  split.
  - apply (proj1 (string_selection_is_one_key "" (OnStr "validation_end")
                    Sample.fitting (Sample.worker_world 0) 0
                    eq_refl eq_refl eq_refl)).
    reflexivity.
  - apply (proj2 (string_selection_is_one_key "val_acc" (OnStr "validation_end")
                    Sample.fitting (Sample.worker_world 0) 0
                    eq_refl eq_refl eq_refl)).
    reflexivity.
Defined.

(** X4, at concrete selections: a reordered list with a repetition. *)
Lemma list_selection_order_irrelevant_witness :
  TuneReportCallback._get_report_dict
    (TuneReportCallback.mk ["validation_end"]
       (MetricsList ["val_loss"; "val_acc"])) Sample.fitting
  = TuneReportCallback._get_report_dict
      (TuneReportCallback.mk ["validation_end"]
         (MetricsList ["val_acc"; "val_loss"; "val_acc"])) Sample.fitting.
Proof.
  apply list_selection_order_irrelevant.
  - intros key. rewrite !elem_of_cons, !elem_of_nil. tauto.
  - repeat constructor; by eexists.
Defined.

(** * Further properties of checkpoint files, pickling and test hooks *)






(** X8: pickling keeps the sizing of an accelerator.  The state taken by
    [__getstate__] and put into any object by [__setstate__] gives that
    object the [num_hosts], [num_slots] and [use_gpu] of the original,
    whatever the superclass's state says under those names; under every
    other name the object gets the superclass's entry if there is one
    and keeps its own attribute otherwise, so nothing else of the
    accelerator (its executor, say) travels with it. *)
Theorem getstate_setstate_round_trip `{HostTypes}
    (self : HorovodRayAccelerator.t)
    (super_state prior : gmap string HorovodRayAccelerator.attr) :
  let restored :=
    HorovodRayAccelerator.__setstate__ prior
      (HorovodRayAccelerator.__getstate__ self super_state) in
  restored !! "num_hosts"
  = Some (HorovodRayAccelerator.AttrInt (HorovodRayAccelerator.num_hosts self))
  ∧ restored !! "num_slots"
    = Some (HorovodRayAccelerator.AttrInt (HorovodRayAccelerator.num_slots self))
  ∧ restored !! "use_gpu"
    = Some (HorovodRayAccelerator.AttrBool (HorovodRayAccelerator.use_gpu self))
  ∧ ∀ name, name ≠ "num_hosts" → name ≠ "num_slots" → name ≠ "use_gpu" →
      restored !! name
      = match super_state !! name with
        | Some v => Some v
        | None => prior !! name
        end.
Proof.
  intros restored. subst restored.
  unfold HorovodRayAccelerator.__setstate__, HorovodRayAccelerator.__getstate__.
  cbv zeta. split_and!.
  - apply lookup_union_Some_l.
    rewrite lookup_insert_ne, lookup_insert_ne by done. apply lookup_insert_eq.
  - apply lookup_union_Some_l.
    rewrite lookup_insert_ne by done. apply lookup_insert_eq.
  - apply lookup_union_Some_l. apply lookup_insert_eq.
  - intros name H1 H2 H3. rewrite lookup_union.
    rewrite !lookup_insert_ne by done.
    destruct (super_state !! name), (prior !! name); done.
Qed.

(** X8, at a concrete accelerator whose superclass state has its own
    [num_hosts] entry and a [nickname]. *)
Lemma getstate_setstate_round_trip_witness :
  HorovodRayAccelerator.__setstate__ ∅
    (HorovodRayAccelerator.__getstate__ Sample.accelerator
       (<["num_hosts" := HorovodRayAccelerator.AttrInt 99]>
          (<["nickname" := HorovodRayAccelerator.AttrOther "horovod_ray"]> ∅)))
  !! "nickname" = Some (HorovodRayAccelerator.AttrOther "horovod_ray").
Proof.
  refine (eq_trans (proj2 (proj2 (proj2 (getstate_setstate_round_trip
            Sample.accelerator _ ∅))) "nickname" _ _ _) _);
    [discriminate|discriminate|discriminate|reflexivity].
Defined.




(** X10: the test model's checkpoint hooks round-trip its counter.  What
    [on_save_checkpoint] writes into a checkpoint dictionary,
    [on_load_checkpoint] reads back into any model, which then equals the
    saved one; saving leaves the other entries of the dictionary alone;
    loading a dictionary with no [val_epoch] entry raises [KeyError]. *)
Theorem checkpoint_hooks_round_trip (self other : utils.BoringModel.t)
    (checkpoint : gmap string utils.entry) :
  utils.BoringModel.on_load_checkpoint other
    (utils.BoringModel.on_save_checkpoint self checkpoint) = Ok self
  ∧ (∀ name, name ≠ "val_epoch" →
       utils.BoringModel.on_save_checkpoint self checkpoint !! name
       = checkpoint !! name)
  ∧ (checkpoint !! "val_epoch" = None →
     utils.BoringModel.on_load_checkpoint other checkpoint
     = Raise (KeyError "val_epoch")).
Proof.
  unfold utils.BoringModel.on_load_checkpoint,
    utils.BoringModel.on_save_checkpoint.
  split_and!.
  - rewrite lookup_insert_eq. by destruct self.
  - intros name Hne. by rewrite lookup_insert_ne.
  - by intros ->.
Qed.

(** X10, at a concrete load of a checkpoint that lacks the counter. *)
Lemma checkpoint_hooks_round_trip_witness :
  utils.BoringModel.on_load_checkpoint utils.BoringModel.__init__
    (<["epoch" := utils.EntryInt 3]> ∅)
  = Raise (KeyError "val_epoch").
Proof.
  exact (proj2 (proj2 (checkpoint_hooks_round_trip utils.BoringModel.__init__
           utils.BoringModel.__init__ (<["epoch" := utils.EntryInt 3]> ∅)))
         eq_refl).
Defined.

(** * Further properties of the training protocol *)

Section HorovodExtras.
Context `{HostTypes}.

(** The trainer and the process a worker enters the framework's training
    with. *)
Lemma train_remote_enter (fit : Worker → Trainer → M (results * Trainer))
    (me : Worker) (ref : nat) (queue : option nat) (w : World) (tr : Trainer) :
  objects w !! ref = Some (Some tr) →
  HorovodRayAccelerator.train_remote fit me ref queue w
  = match
      fit me (if on_gpu tr then set_root_gpu (local_rank me) tr else tr)
        (match queue with
         | Some q => set_session (Some (rank me)) (Some q) (log HvdInit w)
         | None => log HvdInit w
         end)
    with
    | (Ok (res, tr'), w1) =>
        (Ok (if bool_decide (rank me ≠ 0) then None
             else Some (res, model tr', reported_path tr')), w1)
    | (Raise e, w1) => (Raise e, w1)
    end.
Proof.
  intros Href.
  unfold HorovodRayAccelerator.train_remote, ray.get, session.init_session.
  unfold_M. simpl. rewrite Href. simpl.
  destruct queue as [q|]; simpl;
    match goal with
    | |- context [fit me ?t ?w0] => destruct (fit me t w0) as [[[res tr']|e] w1]
    end; try done; by case_bool_decide.
Qed.

(** X11: [train_remote] catches nothing.  When the framework's training,
    entered with the GPU bound if the trainer is on GPU and with the
    session initialised if a queue was passed, raises, [train_remote]
    raises the same exception and leaves the process as the training
    left it; no result is produced, whatever the rank. *)
Theorem train_remote_propagates_failure
    (fit : Worker → Trainer → M (results * Trainer))
    (me : Worker) (ref : nat) (queue : option nat) (w w1 : World)
    (tr : Trainer) (e : exn) :
  objects w !! ref = Some (Some tr) →
  fit me (if on_gpu tr then set_root_gpu (local_rank me) tr else tr)
    (match queue with
     | Some q => set_session (Some (rank me)) (Some q) (log HvdInit w)
     | None => log HvdInit w
     end) = (Raise e, w1) →
  HorovodRayAccelerator.train_remote fit me ref queue w = (Raise e, w1).
Proof.
  intros Href Hfit. rewrite (train_remote_enter fit me ref queue w tr Href).
  by rewrite Hfit.
Qed.

Lemma get_report_dict_root_gpu (cb : TuneReportCallback.t) (tr : Trainer)
    (g : nat) :
  TuneReportCallback._get_report_dict cb (set_root_gpu g tr)
  = TuneReportCallback._get_report_dict cb tr.
Proof. done. Qed.

(** X12: the session a worker sets up is the one its callbacks use.  When
    the training run inside [train_remote] fires the metric reporter, on
    a worker that was handed the queue [q], the rank-0 worker returns its
    triple and leaves the report at the back of [q]; a worker of any
    other rank returns [None] and leaves every queue as it was. *)
Theorem report_during_training_reaches_queue (cb : TuneReportCallback.t)
    (res : results) (me : Worker) (ref q : nat) (w : World) (tr : Trainer)
    (d : gmap string scalar) :
  objects w !! ref = Some (Some tr) →
  is_Some (relay w !! q) →
  TuneReportCallback._get_report_dict cb tr = Ok (Some d) →
  let r := HorovodRayAccelerator.train_remote (training_that_reports cb res)
             me ref (Some q) w in
  (rank me = 0 →
   r.1 = Ok (Some (res, model tr, reported_path tr))
   ∧ pending q r.2 = pending q w ++ [Report d])
  ∧ (rank me ≠ 0 → r.1 = Ok None ∧ relay r.2 = relay w).
Proof.
  intros Href Hq Hd r. subst r.
  rewrite (train_remote_enter _ me ref (Some q) w tr Href).
  set (tr0 := if on_gpu tr then set_root_gpu (local_rank me) tr else tr).
  set (w0 := set_session (Some (rank me)) (Some q) (log HvdInit w)).
  assert (TuneReportCallback._get_report_dict cb tr0 = Ok (Some d)) as Hd0.
  { subst tr0. destruct (on_gpu tr); [|done].
    by rewrite get_report_dict_root_gpu. }
  assert (model tr0 = model tr ∧ reported_path tr0 = reported_path tr)
    as [Hm Hp].
  { subst tr0. by destruct (on_gpu tr). }
  unfold training_that_reports. unfold mbind, M_bind, bind.
  split.
  - intros Hrank.
    rewrite report_handle_rank0 by (subst w0; simpl; by rewrite Hrank).
    rewrite Hd0. rewrite (put_queue_active _ _ q) by done.
    unfold_M. rewrite bool_decide_eq_false_2 by lia. simpl.
    split; [by rewrite Hm, Hp|].
    by rewrite pending_enqueue_at.
  - intros Hrank.
    rewrite report_handle_other_rank
      by (subst w0; simpl; intros [=]; by apply Hrank).
    unfold_M. by rewrite bool_decide_eq_true_2.
Qed.

End HorovodExtras.

(** X11, at a concrete worker whose training fails. *)
Lemma train_remote_propagates_failure_witness :
  HorovodRayAccelerator.train_remote
    (fun _ _ => raise (RuntimeError "CUDA out of memory"))
    (mkWorker 0 0) 0 None Sample.cluster_world
  = (Raise (RuntimeError "CUDA out of memory"),
     log HvdInit Sample.cluster_world).
Proof.
  apply (train_remote_propagates_failure (H := Sample.host) _ _ _ _ _ _
           Sample.fitting); reflexivity.
Defined.

(** X12, at concrete workers of rank 0 and of rank 1. *)
Lemma report_during_training_reaches_queue_witness :
  pending 0
    (HorovodRayAccelerator.train_remote
       (training_that_reports Sample.report_loss 10) (mkWorker 0 0) 0 (Some 0)
       Sample.tuned_cluster_world).2
  = [Report (<["val_loss" := 5%Z]> ∅)]
  ∧ relay
      (HorovodRayAccelerator.train_remote
         (training_that_reports Sample.report_loss 10) (mkWorker 1 1) 0 (Some 0)
         Sample.tuned_cluster_world).2
    = <[0 := Sample.empty_queue]> ∅.
Proof.
  split.
  - refine (proj2 (proj1 (report_during_training_reaches_queue
             (H := Sample.host) Sample.report_loss 10 (mkWorker 0 0) 0 0
             Sample.tuned_cluster_world
             Sample.fitting (<["val_loss" := 5%Z]> ∅) eq_refl _ eq_refl)
             eq_refl)).
    by eexists.
  - refine (proj2 (proj2 (report_during_training_reaches_queue
             (H := Sample.host) Sample.report_loss 10 (mkWorker 1 1) 0 0
             Sample.tuned_cluster_world
             Sample.fitting (<["val_loss" := 5%Z]> ∅) eq_refl _ eq_refl) _)).
    + by eexists.
    + discriminate.
Defined.

Section TrainExtras.
Context `{HostTypes}.
Variable fit : Worker → Trainer → M (results * Trainer).

Lemma remote_task_ok (me : Worker) (ref : nat) (queue : option nat)
    (tr : Trainer) (w : World) :
  well_behaved fit →
  objects w !! ref = Some (Some tr) →
  ∃ r w',
    ray.remote (HorovodRayAccelerator.train_remote fit me ref queue) w
    = (Ok r, w')
    ∧ objects w' = objects w
    ∧ (is_Some r ↔ rank me = 0).
Proof.
  intros Hfit Href. unfold ray.remote.
  rewrite (train_remote_enter fit me ref queue _ tr) by done.
  match goal with
  | |- context [fit me ?t ?w0] =>
      destruct (Hfit me t w0) as (res & tr' & w1 & Hrun & Hobj); rewrite Hrun
  end.
  do 2 eexists. split; [reflexivity|]. split.
  - simpl. rewrite Hobj. by destruct queue.
  - case_bool_decide as Hr; split; intros Hs;
      first [done | by destruct Hs | lia | by eexists].
Qed.

Lemma wait_all_workers_ok (ref : nat) (queue : option nat) (tr : Trainer)
    (ws : list Worker) (w : World) :
  well_behaved fit →
  objects w !! ref = Some (Some tr) →
  ∃ rs w',
    util.wait_all
      ((fun me => ray.remote (HorovodRayAccelerator.train_remote fit me ref queue))
         <$> ws) w = (Ok rs, w')
    ∧ Forall2 (fun me r => is_Some r ↔ rank me = 0) ws rs.
Proof.
  intros Hfit. revert w. induction ws as [|me ws IH]; intros w Href.
  - exists [], w. split; [done|constructor].
  - destruct (remote_task_ok me ref queue tr w Hfit Href)
      as (r & w1 & Hrun & Hobj & Hr).
    destruct (IH w1) as (rs & w2 & Hrest & Hall); [by rewrite Hobj|].
    exists (r :: rs), w2. split; [|by constructor].
    rewrite fmap_cons. simpl. unfold mbind, M_bind, bind.
    rewrite Hrun, Hrest. done.
Qed.

Lemma dispatched_tasks (ex : RayExecutor) (ref : nat) (queue : option nat) :
  task <$> CustomRayExecutor.run_async ex
             (HorovodRayAccelerator.train_remote_call fit)
             (Some [ObjectRef ref; queue_obj queue])
  = (fun me => ray.remote (HorovodRayAccelerator.train_remote fit me ref queue))
      <$> workers ex.
Proof.
  unfold CustomRayExecutor.run_async. rewrite <-list_fmap_compose.
  apply list_fmap_ext. intros i me _. simpl. by destruct queue.
Qed.

Lemma train_dispatch_store (env : Install) (self : HorovodRayAccelerator.t)
    (ex : RayExecutor) (w : World) :
  HorovodRayAccelerator.executor self = Some ex →
  ∃ queue w',
    HorovodRayAccelerator.train_dispatch fit env self w
    = (Ok (HorovodRayAccelerator.trainer self,
           HorovodRayAccelerator.set_trainer None self, queue,
           CustomRayExecutor.run_async ex
             (HorovodRayAccelerator.train_remote_call fit)
             (Some [ObjectRef (length (objects w)); queue_obj queue])), w')
    ∧ objects w' = objects w ++ [HorovodRayAccelerator.trainer self].
Proof.
  intros Hex.
  unfold HorovodRayAccelerator.train_dispatch, ray.put, util.Queue.
  unfold_M. simpl. rewrite Hex.
  destruct (TUNE_INSTALLED env && is_session_enabled env); simpl.
  - eexists (Some _), _. split; [reflexivity|done].
  - exists None. eexists. split; [reflexivity|done].
Qed.

Lemma process_results_run {A} (futures : list (M A)) (queue : option nat)
    (w w1 : World) (rs : list A) :
  util.wait_all futures w = (Ok rs, w1) →
  ∃ w2, util.process_results futures queue w = (Ok rs, w2).
Proof.
  intros Hwait. unfold util.process_results. unfold mbind, M_bind, bind.
  rewrite Hwait. unfold util.drain. destruct queue; unfold_M; by eexists.
Qed.



(** X14: [train] depends on rank 0 being the first worker.  With the same
    well-behaved training, if the executor's first worker has a rank
    other than 0, the first collected result is [None] and unpacking it
    makes [train] raise [TypeError], although every worker succeeded. *)
Theorem train_fails_when_first_worker_is_not_rank0 (env : Install)
    (self : HorovodRayAccelerator.t) (ex : RayExecutor)
    (me : Worker) (others : list Worker) (tr : Trainer) (w : World) :
  HorovodRayAccelerator.trainer self = Some tr →
  HorovodRayAccelerator.executor self = Some ex →
  workers ex = me :: others →
  rank me ≠ 0 →
  well_behaved fit →
  ∃ w',
    HorovodRayAccelerator.train fit env self w
    = (Raise (TypeError "cannot unpack non-iterable NoneType object"), w').
Proof.
  intros Htr Hex Hws Hrank Hfit.
  destruct (train_dispatch_store env self ex w Hex) as (queue & w1 & Hdisp & Hobj).
  destruct (wait_all_workers_ok (length (objects w)) queue tr (workers ex) w1 Hfit)
    as (rs & w2 & Hwait & Hall).
  { rewrite Hobj, Htr. by rewrite lookup_app_r, Nat.sub_diag by lia. }
  rewrite <-dispatched_tasks in Hwait.
  destruct (process_results_run _ queue _ _ _ Hwait) as (w3 & Hproc).
  rewrite Hws in Hall. apply Forall2_cons_inv_l in Hall
    as (r & rs' & Hr & _ & ->).
  destruct r as [triple|]; [by destruct (Hrank (proj1 Hr (mk_is_Some _ _ eq_refl)))|].
  exists w3.
  unfold HorovodRayAccelerator.train. unfold mbind, M_bind, bind.
  rewrite Hdisp. unfold HorovodRayAccelerator.train_collect.
  unfold mbind, M_bind, bind.
  unfold HorovodRayAccelerator.RunResult in *. by rewrite Hproc.
Qed.

(** X15: on an executor without workers [train] has no result to take:
    it stores the trainer, collects an empty list and raises
    [IndexError], whatever the training would do. *)
Theorem train_without_workers_raises (env : Install)
    (self : HorovodRayAccelerator.t) (ex : RayExecutor) (w : World) :
  HorovodRayAccelerator.executor self = Some ex →
  workers ex = [] →
  ∃ w',
    HorovodRayAccelerator.train fit env self w
    = (Raise (IndexError "list index out of range"), w')
    ∧ objects w' = objects w ++ [HorovodRayAccelerator.trainer self].
Proof.
  intros Hex Hws.
  destruct (train_dispatch_store env self ex w Hex) as (queue & w1 & Hdisp & Hobj).
  unfold HorovodRayAccelerator.train. unfold mbind, M_bind, bind.
  rewrite Hdisp. unfold HorovodRayAccelerator.train_collect.
  unfold mbind, M_bind, bind.
  unfold CustomRayExecutor.run_async. rewrite Hws. simpl.
  unfold util.process_results, util.drain. unfold_M. simpl.
  destruct queue; eexists; (split; [reflexivity|done]).
Qed.

(** X16: [train] before [setup] fails late: with no executor on the
    accelerator it raises [AttributeError], but only after the trainer
    went into the object store. *)
Theorem train_before_setup_raises (env : Install)
    (self : HorovodRayAccelerator.t) (w : World) :
  HorovodRayAccelerator.executor self = None →
  ∃ msg w',
    HorovodRayAccelerator.train fit env self w = (Raise (AttributeError msg), w')
    ∧ objects w' = objects w ++ [HorovodRayAccelerator.trainer self].
Proof.
  intros Hex.
  unfold HorovodRayAccelerator.train, HorovodRayAccelerator.train_dispatch.
  unfold ray.put, util.Queue. unfold_M. simpl. rewrite Hex.
  destruct (TUNE_INSTALLED env && is_session_enabled env); simpl;
    do 2 eexists; (split; [reflexivity|done]).
Qed.

End TrainExtras.

Lemma sample_fit_well_behaved : well_behaved Sample.fit.
Proof. intros me tr w. by do 3 eexists. Qed.


(** X14, at a concrete executor whose workers come in the order 1, 0. *)
Lemma train_fails_when_first_worker_is_not_rank0_witness :
  ∃ w',
    HorovodRayAccelerator.train Sample.fit Sample.tuning
      (HorovodRayAccelerator.mk "horovod_ray" 1 2 false (Some Sample.fitting)
         (Some (mkRayExecutor [mkWorker 1 1; mkWorker 0 0])))
      Sample.quiet_world
    = (Raise (TypeError "cannot unpack non-iterable NoneType object"), w').
Proof.
  refine (train_fails_when_first_worker_is_not_rank0 Sample.fit Sample.tuning
            (HorovodRayAccelerator.mk "horovod_ray" 1 2 false
               (Some Sample.fitting)
               (Some (mkRayExecutor [mkWorker 1 1; mkWorker 0 0])))
            (mkRayExecutor [mkWorker 1 1; mkWorker 0 0]) (mkWorker 1 1)
            [mkWorker 0 0] Sample.fitting Sample.quiet_world eq_refl eq_refl
            eq_refl _ sample_fit_well_behaved).
  discriminate.
Defined.

(** X15, at a concrete accelerator sized with no hosts. *)
Lemma train_without_workers_raises_witness :
  ∃ w',
    HorovodRayAccelerator.train Sample.fit Sample.tuning
      (HorovodRayAccelerator.mk "horovod_ray" 0 2 false (Some Sample.fitting)
         (Some (start 0 2)))
      Sample.quiet_world
    = (Raise (IndexError "list index out of range"), w')
    ∧ objects w' = [Some Sample.fitting].
Proof.
  exact (train_without_workers_raises Sample.fit Sample.tuning
           (HorovodRayAccelerator.mk "horovod_ray" 0 2 false
              (Some Sample.fitting) (Some (start 0 2)))
           (start 0 2) Sample.quiet_world eq_refl eq_refl).
Defined.

(** X16, at a concrete accelerator that was never set up. *)
Lemma train_before_setup_raises_witness :
  ∃ msg w',
    HorovodRayAccelerator.train Sample.fit Sample.tuning
      (HorovodRayAccelerator.mk "horovod_ray" 1 2 false (Some Sample.fitting)
         None)
      Sample.quiet_world
    = (Raise (AttributeError msg), w')
    ∧ objects w' = [Some Sample.fitting].
Proof.
  exact (train_before_setup_raises Sample.fit Sample.tuning
           (HorovodRayAccelerator.mk "horovod_ray" 1 2 false
              (Some Sample.fitting) None)
           Sample.quiet_world eq_refl).
Defined.
